(** * Soft Neon: the per-frame vehicle simulation, the NPC loop, the radio log

    A shallow embedding of the frame callbacks of [src/components/ThreeScene.tsx]
    ([Player], [NpcCar]), of [addMessage] of the overlay component and of
    [fetchRadioChatter] of [src/services/geminiService.ts].

    JavaScript numbers are modelled as exact real numbers: [+], [-], [*], [/],
    [Math.min], [Math.max], [Math.abs], [Math.sin], [Math.cos] and [Math.sqrt]
    are the operations of [R].  Rounding, infinities and NaN of IEEE doubles are
    outside that model.  The callback of the player is given a second time in
    binary64 arithmetic ([Ieee]), for the properties that rest on an exact
    cancellation and do not survive the rounding. *)

From Stdlib Require Import Reals Lra List Bool String Ascii Arith ZArith Lia.
From Stdlib Require Floats.
Import ListNotations.
Local Open Scope R_scope.

(** ** Comparisons of numbers as the booleans the [if]s of the source test *)

Definition Rltb (a b : R) : bool := if Rlt_dec a b then true else false.
Definition Rgtb (a b : R) : bool := Rltb b a.

(** ** The fragment of three.js the callbacks use

    three.js is a dependency of the repository.  The definitions below follow
    the library: [Quaternion.setFromEuler] for the default order XYZ (the
    [rotation] of an [Object3D] keeps its [quaternion] in sync through this
    function on every write to a component), [Vector3.applyQuaternion],
    [Vector3.add], [Vector3.multiplyScalar], [Vector3.distanceTo] and
    [MathUtils.lerp]. *)

Module Quaternion.
Record t : Type := mk { x : R; y : R; z : R; w : R }.

Definition setFromEuler (ex ey ez : R) : t :=
  let c1 := cos (ex / 2) in
  let c2 := cos (ey / 2) in
  let c3 := cos (ez / 2) in
  let s1 := sin (ex / 2) in
  let s2 := sin (ey / 2) in
  let s3 := sin (ez / 2) in
  mk (s1 * c2 * c3 + c1 * s2 * s3)
     (c1 * s2 * c3 - s1 * c2 * s3)
     (c1 * c2 * s3 + s1 * s2 * c3)
     (c1 * c2 * c3 - s1 * s2 * s3).
End Quaternion.

Module Vector3.
Record t : Type := mk { x : R; y : R; z : R }.

Definition add (a v : t) : t := mk (x a + x v) (y a + y v) (z a + z v).

Definition multiplyScalar (v : t) (s : R) : t := mk (x v * s) (y v * s) (z v * s).

Definition applyQuaternion (v : t) (q : Quaternion.t) : t :=
  let qx := Quaternion.x q in
  let qy := Quaternion.y q in
  let qz := Quaternion.z q in
  let qw := Quaternion.w q in
  let tx := 2 * (qy * z v - qz * y v) in
  let ty := 2 * (qz * x v - qx * z v) in
  let tz := 2 * (qx * y v - qy * x v) in
  mk (x v + qw * tx + qy * tz - qz * ty)
     (y v + qw * ty + qz * tx - qx * tz)
     (z v + qw * tz + qx * ty - qy * tx).

Definition distanceToSquared (a v : t) : R :=
  let dx := x a - x v in
  let dy := y a - y v in
  let dz := z a - z v in
  dx * dx + dy * dy + dz * dz.

Definition distanceTo (a v : t) : R := sqrt (distanceToSquared a v).
End Vector3.

Module MathUtils.
Definition lerp (x y t : R) : R := (1 - t) * x + t * y.
End MathUtils.

(** ** [src/unnamed/part_001]: the shared types *)

Module CarControls.
Record t : Type := mk {
  forward : bool;
  backward : bool;
  left : bool;
  right : bool;
  up : bool;
  down : bool;
  boost : bool
}.
End CarControls.

Module BuildingData.
Record t : Type := mk {
  x : R;
  z : R;
  width : R;
  height : R;
  depth : R;
  color : string
}.
End BuildingData.

(** ** [Player]: the frame callback of the player's car *)

Module Player.
Import CarControls.

(** The mutable state the callback owns: [carRef.current.position],
    [carRef.current.rotation.y] and [.z] ([rotation.x] is never written and
    keeps its initial value 0), [speedRef.current], [impactRef.current].
    The callback returns at once while [carRef.current] is null; the model
    is of the frames of the mounted car. *)
Record refs : Type := mkRefs {
  position : Vector3.t;
  rotation_y : R;
  rotation_z : R;
  speedRef : R;
  impactRef : R
}.

(** A fresh [group] sits at the origin with no rotation; both refs start at 0. *)
Definition initial : refs := mkRefs (Vector3.mk 0 0 0) 0 0 0 0.

Definition maxSpeed (controls : t) : R := if boost controls then 50 else 25.
Definition accel (delta : R) : R := 20 * delta.
Definition rotSpeed (delta : R) : R := 2.5 * delta.
Definition friction : R := 0.97.

(** The reverse bound the backward branch clamps to: [-maxSpeed / 2]. *)
Definition reverseBound (controls : t) : R := - maxSpeed controls / 2.

(** Lines 164-169: acceleration, braking, friction. *)
Definition updateSpeed (controls : t) (delta speed : R) : R :=
  let s1 := if forward controls
            then Rmin (speed + accel delta) (maxSpeed controls) else speed in
  let s2 := if backward controls
            then Rmax (s1 - accel delta) (reverseBound controls) else s1 in
  if negb (forward controls) && negb (backward controls)
  then s2 * friction else s2.

(** Lines 172-175: rotation, only above the dead zone. *)
Definition updateRotationY (controls : t) (delta speed yaw : R) : R :=
  if Rgtb (Rabs speed) 0.1 then
    let y1 := if left controls then yaw + rotSpeed delta else yaw in
    if right controls then y1 - rotSpeed delta else y1
  else yaw.

(** Lines 178-182: altitude and the ground/ceiling clamp. *)
Definition updateAltitude (controls : t) (delta y : R) : R :=
  let y1 := if up controls then y + 15 * delta else y in
  let y2 := if down controls then y1 - 15 * delta else y1 in
  Rmax (-18) (Rmin y2 80).

(** Lines 159-182 on the whole state. *)
Definition physics (controls : t) (delta : R) (s : refs) : refs :=
  let speed := updateSpeed controls delta (speedRef s) in
  let yaw := updateRotationY controls delta speed (rotation_y s) in
  let p := position s in
  mkRefs (Vector3.mk (Vector3.x p)
                     (updateAltitude controls delta (Vector3.y p))
                     (Vector3.z p))
         yaw (rotation_z s) speed (impactRef s).

(** [carRef.current.quaternion]: kept equal to the Euler rotation. *)
Definition quaternion (s : refs) : Quaternion.t :=
  Quaternion.setFromEuler 0 (rotation_y s) (rotation_z s).

(** Lines 185-187.  [multiplyScalar] scales [direction] in place and
    returns it, so [moveVector] is that same vector, scaled.  In exact
    arithmetic the bank angle cancels in [direction] and its y component is
    0; [Ieee.direction] is the same vector as the doubles give it. *)
Definition direction (s : refs) : Vector3.t :=
  Vector3.applyQuaternion (Vector3.mk 0 0 (-1)) (quaternion s).

Definition moveVector (delta : R) (s : refs) : Vector3.t :=
  Vector3.multiplyScalar (direction s) (speedRef s * delta).

(** Line 188: a clone of the position, moved. *)
Definition nextPos (delta : R) (s : refs) : Vector3.t :=
  Vector3.add (position s) (moveVector delta s).

Definition CAR_HW : R := 1.0.
Definition CAR_HL : R := 2.0.

(** Lines 200-208: the test of one building. *)
Definition hitsBuilding (p : Vector3.t) (b : BuildingData.t) : bool :=
  let bMinX := BuildingData.x b - BuildingData.width b / 2 - CAR_HW in
  let bMaxX := BuildingData.x b + BuildingData.width b / 2 + CAR_HW in
  let bMinZ := BuildingData.z b - BuildingData.depth b / 2 - CAR_HL in
  let bMaxZ := BuildingData.z b + BuildingData.depth b / 2 + CAR_HL in
  let bMaxY := -20 + BuildingData.height b + 1 in
  Rgtb (Vector3.x p) bMinX && Rltb (Vector3.x p) bMaxX &&
  Rgtb (Vector3.z p) bMinZ && Rltb (Vector3.z p) bMaxZ &&
  Rltb (Vector3.y p) bMaxY.

(** Lines 198-212: the loop over the buildings, left at the first hit. *)
Fixpoint collidesBuildings (p : Vector3.t) (buildings : list BuildingData.t) : bool :=
  match buildings with
  | [] => false
  | b :: rest => if hitsBuilding p b then true else collidesBuildings p rest
  end.

(** Lines 218-219: the test of one NPC. *)
Definition hitsNpc (p npcPos : Vector3.t) : bool :=
  if Rltb (Rabs (Vector3.x npcPos - Vector3.x p)) 4 &&
     Rltb (Rabs (Vector3.z npcPos - Vector3.z p)) 4
  then Rltb (Vector3.distanceTo p npcPos) 3.5
  else false.

(** Lines 216-224. *)
Fixpoint collidesNpcs (p : Vector3.t) (npcs : list Vector3.t) : bool :=
  match npcs with
  | [] => false
  | npcPos :: rest => if hitsNpc p npcPos then true else collidesNpcs p rest
  end.

(** Lines 191-225: the value of [collided] when the response reads it. *)
Definition collided (buildings : list BuildingData.t) (npcs : list Vector3.t)
           (p : Vector3.t) : bool :=
  if collidesBuildings p buildings then true
  else collidesNpcs p npcs.

(** The corrective displacement of line 231: [moveVector.multiplyScalar(-2)]. *)
Definition pushBack (delta : R) (s : refs) : Vector3.t :=
  Vector3.multiplyScalar (moveVector delta s) (-2).

(** Lines 227-234: bounce and push back, or commit the proposed position. *)
Definition respond (hit : bool) (delta : R) (s : refs) : refs :=
  if hit then
    mkRefs (Vector3.add (position s) (pushBack delta s))
           (rotation_y s) (rotation_z s) (speedRef s * -0.5) 0.5
  else
    mkRefs (nextPos delta s)
           (rotation_y s) (rotation_z s) (speedRef s) (impactRef s).

(** Lines 237-241: the banking animation. *)
Definition bankTarget (controls : t) : R :=
  if left controls then 0.35 else if right controls then -0.35 else 0.

Definition bank (controls : t) (s : refs) : refs :=
  mkRefs (position s) (rotation_y s)
         (MathUtils.lerp (rotation_z s) (bankTarget controls) 0.1)
         (speedRef s) (impactRef s).

(** Lines 248-253: the impact timer runs down while it is positive (the
    jitter it drives goes to the camera only). *)
Definition shake (delta : R) (s : refs) : refs :=
  mkRefs (position s) (rotation_y s) (rotation_z s) (speedRef s)
         (if Rgtb (impactRef s) 0 then impactRef s - delta else impactRef s).

(** The verdict of the collision test of one frame. *)
Definition frameCollided (controls : t) (buildings : list BuildingData.t)
           (npcs : list Vector3.t) (delta : R) (s : refs) : bool :=
  let s1 := physics controls delta s in
  collided buildings npcs (nextPos delta s1).

(** The state at line 234, after the response and before the banking. *)
Definition afterResponse (controls : t) (buildings : list BuildingData.t)
           (npcs : list Vector3.t) (delta : R) (s : refs) : refs :=
  let s1 := physics controls delta s in
  respond (collided buildings npcs (nextPos delta s1)) delta s1.

(** One call of the frame callback. *)
Definition useFrame (controls : t) (buildings : list BuildingData.t)
           (npcs : list Vector3.t) (delta : R) (s : refs) : refs :=
  shake delta (bank controls (afterResponse controls buildings npcs delta s)).

(** The states the car can be in: the initial one, and any state a frame
    leads to, whatever the controls, the NPC positions and the elapsed time. *)
Inductive reachable (buildings : list BuildingData.t) : refs -> Prop :=
| reachable_initial : reachable buildings initial
| reachable_frame controls npcs delta s :
    reachable buildings s ->
    reachable buildings (useFrame controls buildings npcs delta s).

(** What one frame reads besides the state and the buildings. *)
Record frame : Type := mkFrame {
  controls : t;
  npcRefs : list Vector3.t;
  delta : R
}.

(** Successive frames, first to last. *)
Fixpoint run (buildings : list BuildingData.t) (frames : list frame) (s : refs) : refs :=
  match frames with
  | [] => s
  | f :: rest =>
      run buildings rest (useFrame (controls f) buildings (npcRefs f) (delta f) s)
  end.

(** The verdicts of their collision tests, in the same order. *)
Fixpoint verdicts (buildings : list BuildingData.t) (frames : list frame) (s : refs)
  : list bool :=
  match frames with
  | [] => []
  | f :: rest =>
      frameCollided (controls f) buildings (npcRefs f) (delta f) s
      :: verdicts buildings rest (useFrame (controls f) buildings (npcRefs f) (delta f) s)
  end.

(** The position lies in the inflated footprint of a building, below its
    top plus clearance. *)
Definition insideBuilding (buildings : list BuildingData.t) (p : Vector3.t) : Prop :=
  exists b, In b buildings /\ hitsBuilding p b = true.

(** No forward, backward, up or down intent (turning and boost are free). *)
Definition coasting (c : t) : Prop :=
  forward c = false /\ backward c = false /\ up c = false /\ down c = false.

(** The controls with both turn intents released. *)
Definition withoutTurn (c : t) : t :=
  CarControls.mk (forward c) (backward c) false false (up c) (down c) (boost c).
End Player.

(** ** [NpcCar]: the frame callback of one NPC car *)

Module NpcCar.
(** Line 118 and line 119, one guarded assignment each. *)
Definition loopHigh (z : R) : R := if Rgtb z 200 then -200 else z.
Definition loopLow (z : R) : R := if Rltb z (-200) then 200 else z.

(** Lines 114-119 on [ref.current.position]; [speed] and [offset] are fixed
    per car, [elapsedTime] is [state.clock.elapsedTime]. *)
Definition useFrame (speed offset elapsedTime delta : R) (p : Vector3.t) : Vector3.t :=
  let z1 := Vector3.z p + speed * delta in
  let y1 := Vector3.y p + sin (elapsedTime + offset) * 0.02 in
  Vector3.mk (Vector3.x p) y1 (loopLow (loopHigh z1)).
End NpcCar.

(** ** The overlay component ([src/unnamed/part_000]): the radio log *)

Module GameOverlay.
Record RadioMessage : Type := mkRadioMessage {
  id : string;
  sender : string;
  text : string;
  timestamp : string
}.

(** [Array.prototype.slice(start)]: a negative [start] counts from the end,
    and the index is clamped to the array. *)
Definition slice {A : Type} (start : Z) (l : list A) : list A :=
  let len := Z.of_nat (List.length l) in
  let k := if (start <? 0)%Z then Z.max (len + start) 0 else Z.min start len in
  skipn (Z.to_nat k) l.

(** Lines 39-44, as the update [setMessages] applies to the previous log.
    [newId] is the value of [generateId()] and [now] the formatted time of
    the call. *)
Definition addMessage (newId now : string) (sender text : string)
           (prev : list RadioMessage) : list RadioMessage :=
  (slice (-4) prev ++ [mkRadioMessage newId sender text now])%list.

(** The logs the component can hold: empty at first, then changed by
    [addMessage] only. *)
Inductive reachableLog : list RadioMessage -> Prop :=
| log_initial : reachableLog []
| log_added newId now sender text prev :
    reachableLog prev ->
    reachableLog (addMessage newId now sender text prev).
End GameOverlay.

(** ** [src/services/geminiService.ts] *)

Module GeminiService.
(** A JavaScript string is held as its UTF-8 bytes.  [String.prototype.trim]
    removes from both ends the code points of WhiteSpace and LineTerminator of
    ECMAScript: U+0009 to U+000D, U+0020, U+00A0, U+1680, U+2000 to U+200A,
    U+2028, U+2029, U+202F, U+205F, U+3000 and U+FEFF.  Below, the bytes of
    each of them. *)
Definition whiteSpaceCodes : list (list ascii) :=
  map (map ascii_of_nat)
      [[9]; [10]; [11]; [12]; [13]; [32]; [194; 160]; [225; 154; 128];
       [226; 128; 128]; [226; 128; 129]; [226; 128; 130]; [226; 128; 131];
       [226; 128; 132]; [226; 128; 133]; [226; 128; 134]; [226; 128; 135];
       [226; 128; 136]; [226; 128; 137]; [226; 128; 138];
       [226; 128; 168]; [226; 128; 169]; [226; 128; 175]; [226; 129; 159];
       [227; 128; 128]; [239; 187; 191]]%nat.

(** The rest of [s] after the prefix [w], when [s] starts with [w]. *)
Fixpoint stripPrefix (w s : list ascii) : option (list ascii) :=
  match w with
  | [] => Some s
  | a :: w' =>
      match s with
      | [] => None
      | b :: s' => if Ascii.eqb a b then stripPrefix w' s' else None
      end
  end.

(** The rest of [s] after one of the [codes], when [s] starts with one. *)
Fixpoint dropLeading (codes : list (list ascii)) (s : list ascii) : option (list ascii) :=
  match codes with
  | [] => None
  | w :: others =>
      match stripPrefix w s with
      | Some rest => Some rest
      | None => dropLeading others s
      end
  end.

(** Drops leading codes as long as there is one; [fuel] bounds the number
    of codes dropped, and the length of [s] is enough. *)
Fixpoint dropAllLeading (codes : list (list ascii)) (fuel : nat) (s : list ascii)
  : list ascii :=
  match fuel with
  | O => s
  | S fuel' =>
      match dropLeading codes s with
      | Some rest => dropAllLeading codes fuel' rest
      | None => s
      end
  end.

Definition trimStart (s : list ascii) : list ascii :=
  dropAllLeading whiteSpaceCodes (List.length s) s.

(** The end is trimmed as the start of the reversed bytes, against the
    reversed codes. *)
Definition trimEnd (s : list ascii) : list ascii :=
  rev (dropAllLeading (map (@rev ascii) whiteSpaceCodes) (List.length s) (rev s)).

Definition trim (s : string) : string :=
  string_of_list_ascii (trimEnd (trimStart (list_ascii_of_string s))).

(** What awaiting [ai.models.generateContent] does: it throws, or it gives a
    response whose [text] is a string or [undefined]. *)
Inductive outcome : Type :=
| Throws (error : string)
| Responds (text : option string).

(** How the returned promise settles. *)
Inductive settled : Type :=
| Resolved (value : string)
| Rejected (error : string).

(** [if (response.text)]: [undefined] and the empty string are falsy. *)
Definition truthy (text : option string) : bool :=
  match text with
  | None => false
  | Some EmptyString => false
  | Some (String _ _) => true
  end.

Definition fallbackEmpty : string := "Signal encrypted... Decryption failed.".
Definition fallbackError : string := "Signal interference detected... Reconnecting...".

(** The body of the [try] block: [inl] is a thrown error, [inr] a [return]. *)
Definition tryBlock (o : outcome) : string + string :=
  match o with
  | Throws error => inl error
  | Responds text =>
      if truthy text
      then match text with
           | Some s => inr (trim s)
           | None => inr fallbackEmpty
           end
      else inr fallbackEmpty
  end.

(** Lines 16-37: the [catch] clause returns the second fallback. *)
Definition fetchRadioChatter (o : outcome) : settled :=
  match tryBlock o with
  | inr value => Resolved value
  | inl _ => Resolved fallbackError
  end.

Definition fallbacks : list string := [fallbackEmpty; fallbackError].
End GeminiService.

(** ** [src/hooks/useControls.ts]: the keyboard handlers *)

Module UseControls.
Import CarControls.

(** The state [useState] starts from. *)
Definition initial : t := mk false false false false false false false.

(** [handleKeyDown], as the update it hands to [setControls]. *)
Definition handleKeyDown (code : string) (c : t) : t :=
  if (code =? "KeyW")%string then
    mk true (backward c) (left c) (right c) (up c) (down c) (boost c)
  else if (code =? "KeyS")%string then
    mk (forward c) true (left c) (right c) (up c) (down c) (boost c)
  else if (code =? "KeyA")%string then
    mk (forward c) (backward c) true (right c) (up c) (down c) (boost c)
  else if (code =? "KeyD")%string then
    mk (forward c) (backward c) (left c) true (up c) (down c) (boost c)
  else if (code =? "ArrowUp")%string then
    mk (forward c) (backward c) (left c) (right c) true (down c) (boost c)
  else if (code =? "ArrowDown")%string then
    mk (forward c) (backward c) (left c) (right c) (up c) true (boost c)
  else if (code =? "ShiftLeft")%string then
    mk (forward c) (backward c) (left c) (right c) (up c) (down c) true
  else c.

(** [handleKeyUp]. *)
Definition handleKeyUp (code : string) (c : t) : t :=
  if (code =? "KeyW")%string then
    mk false (backward c) (left c) (right c) (up c) (down c) (boost c)
  else if (code =? "KeyS")%string then
    mk (forward c) false (left c) (right c) (up c) (down c) (boost c)
  else if (code =? "KeyA")%string then
    mk (forward c) (backward c) false (right c) (up c) (down c) (boost c)
  else if (code =? "KeyD")%string then
    mk (forward c) (backward c) (left c) false (up c) (down c) (boost c)
  else if (code =? "ArrowUp")%string then
    mk (forward c) (backward c) (left c) (right c) false (down c) (boost c)
  else if (code =? "ArrowDown")%string then
    mk (forward c) (backward c) (left c) (right c) (up c) false (boost c)
  else if (code =? "ShiftLeft")%string then
    mk (forward c) (backward c) (left c) (right c) (up c) (down c) false
  else c.

(** What the window delivers to the two listeners. *)
Inductive keyEvent : Type :=
| keydown (code : string)
| keyup (code : string).

Definition dispatch (c : t) (e : keyEvent) : t :=
  match e with
  | keydown code => handleKeyDown code c
  | keyup code => handleKeyUp code c
  end.

(** The controls after a sequence of events, oldest first. *)
Definition replay (events : list keyEvent) : t := fold_left dispatch events initial.

(** The codes the two [switch] statements name. *)
Definition boundCodes : list string :=
  ["KeyW"; "KeyS"; "KeyA"; "KeyD"; "ArrowUp"; "ArrowDown"; "ShiftLeft"]%string.

(** The flag a code is bound to. *)
Definition flagOf (code : string) (c : t) : bool :=
  if (code =? "KeyW")%string then forward c
  else if (code =? "KeyS")%string then backward c
  else if (code =? "KeyA")%string then left c
  else if (code =? "KeyD")%string then right c
  else if (code =? "ArrowUp")%string then up c
  else if (code =? "ArrowDown")%string then down c
  else if (code =? "ShiftLeft")%string then boost c
  else false.

(** Whether the key of [code] is down after [events], when it was [before]. *)
Fixpoint heldAfter (code : string) (events : list keyEvent) (before : bool) : bool :=
  match events with
  | [] => before
  | keydown k :: rest => heldAfter code rest (if (k =? code)%string then true else before)
  | keyup k :: rest => heldAfter code rest (if (k =? code)%string then false else before)
  end.
End UseControls.

(** ** [Rain]: the frame callback of the rain *)

Module Rain.
(** Lines 35-38 on one height.  The heights are entries of a
    [Float32Array]: [fround] is the rounding to single precision of the
    store, and the test of line 36 reads the stored value back. *)
Definition fall (fround : R -> R) (delta y : R) : R :=
  let stored := fround (y - 40 * delta) in
  if Rltb stored (-20) then 100 else stored.

(** Lines 34-39: the loop visits the indices 1, 4, 7, ... of the flat
    position array, as long as they are below its length. *)
Fixpoint useFrame (fround : R -> R) (delta : R) (positions : list R) : list R :=
  match positions with
  | x :: y :: rest =>
      x :: fall fround delta y ::
      match rest with
      | [] => []
      | z :: rest' => z :: useFrame fround delta rest'
      end
  | _ => positions
  end.
End Rain.

(** ** [City]: where a building is drawn *)

Module City.
(** Line 69: the centre of the mesh of a building. *)
Definition meshPosition (b : BuildingData.t) : Vector3.t :=
  Vector3.mk (BuildingData.x b) (BuildingData.height b / 2 - 20) (BuildingData.z b).

(** Line 71: a [boxGeometry] of the given width, height and depth is
    centred on the mesh; the points of the box. *)
Definition insideBox (b : BuildingData.t) (p : Vector3.t) : Prop :=
  Rabs (Vector3.x p - Vector3.x (meshPosition b)) <= BuildingData.width b / 2 /\
  Rabs (Vector3.y p - Vector3.y (meshPosition b)) <= BuildingData.height b / 2 /\
  Rabs (Vector3.z p - Vector3.z (meshPosition b)) <= BuildingData.depth b / 2.
End City.

(** ** The telemetry the player's callback hands to [onUpdate] *)

Module PlayerState.
Record t : Type := mk {
  speed : R;
  altitude : R;
  position : R * R * R;
  rotation : R
}.
End PlayerState.

Module Telemetry.
(** [Math.round]: the nearest integer, halves rounded up. *)
Definition round (x : R) : R := IZR (Zfloor (x + 0.5)).

(** Lines 259-264. *)
Definition onUpdate (s : Player.refs) : PlayerState.t :=
  PlayerState.mk
    (Rabs (round (Player.speedRef s * 10)))
    (round (Vector3.y (Player.position s) + 20))
    (Vector3.x (Player.position s), Vector3.y (Player.position s),
     Vector3.z (Player.position s))
    (Player.rotation_y s).
End Telemetry.

(** ** The generators: [Math.random] is read from a sequence of draws *)

Module Generator.
(** [App.tsx], line 12. *)
Definition randomRange (min max u : R) : R := u * (max - min) + min.

Definition CITY_SIZE : R := 60.
Definition BUILDING_COUNT : nat := 300.
Definition TENDER_PALETTE : list string :=
  ["#ff99c8"; "#fcf6bd"; "#d0f4de"; "#a9def9"; "#e4c1f9"]%string.

(** [palette[Math.floor(u * palette.length)]]; an index outside the array
    reads [undefined], shown here as the empty string. *)
Definition pick (palette : list string) (u : R) : string :=
  let i := Zfloor (u * INR (List.length palette)) in
  if (i <? 0)%Z then EmptyString else nth (Z.to_nat i) palette EmptyString.

(** [App.tsx], lines 24-42: [count] rounds of the loop, the next draw being
    number [k]; a round that falls in the clear centre takes two draws and
    adds nothing, any other takes six and pushes a building. *)
Fixpoint buildingsFrom (rand : nat -> R) (count k : nat)
         (items : list BuildingData.t) : list BuildingData.t :=
  match count with
  | O => items
  | S count' =>
      let x := randomRange (- CITY_SIZE * 3) (CITY_SIZE * 3) (rand k) in
      let z := randomRange (- CITY_SIZE * 3) (CITY_SIZE * 3) (rand (k + 1)%nat) in
      if Rltb (Rabs x) 15 && Rltb (Rabs z) 15 then
        buildingsFrom rand count' (k + 2)%nat items
      else
        let height := randomRange 15 70 (rand (k + 2)%nat) in
        let width := randomRange 3 8 (rand (k + 3)%nat) in
        let depth := randomRange 3 8 (rand (k + 4)%nat) in
        let color := pick TENDER_PALETTE (rand (k + 5)%nat) in
        buildingsFrom rand count' (k + 6)%nat
          (items ++ [BuildingData.mk x z width height depth color])%list
  end.

Definition buildings (rand : nat -> R) : list BuildingData.t :=
  buildingsFrom rand BUILDING_COUNT 0 [].

(** What [Math.random] promises of every draw. *)
Definition unitDraws (rand : nat -> R) : Prop := forall n, 0 <= rand n < 1.

(** [ThreeScene.tsx], lines 320-328: one NPC car from six draws, in the
    order the expressions are evaluated. *)
Record npc : Type := mkNpc {
  initialPos : Vector3.t;
  speed : R;
  color : string
}.

Definition makeNpc (u1 u2 u3 u4 u5 u6 : R) : npc :=
  mkNpc (Vector3.mk ((u1 - 0.5) * 300) (u2 * 40 - 10) ((u3 - 0.5) * 300))
        ((u4 * 20 + 15) * (if Rgtb u5 0.5 then 1 else -1))
        (pick ["#fcf6bd"; "#ff99c8"; "#a9def9"]%string u6).
End Generator.

(** ** The overlay component: the minimap and the chatter timer *)

Module Minimap.
Definition MAP_SIZE : R := 160.
Definition WORLD_SIZE : R := 400.
Definition scale : R := MAP_SIZE / (WORLD_SIZE * 2).

Record rect : Type := mkRect {
  left : R;
  top : R;
  width : R;
  height : R;
  color : string
}.

(** Lines 53-61, for one building. *)
Definition minimapBuilding (b : BuildingData.t) : rect :=
  mkRect ((BuildingData.x b + WORLD_SIZE) * scale - (BuildingData.width b * scale) / 2)
         ((BuildingData.z b + WORLD_SIZE) * scale - (BuildingData.depth b * scale) / 2)
         (Rmax 2 (BuildingData.width b * scale))
         (Rmax 2 (BuildingData.depth b * scale))
         (BuildingData.color b).

Definition minimapBuildings (buildings : list BuildingData.t) : list rect :=
  map minimapBuilding buildings.

(** Lines 63-64. *)
Definition playerX (p : PlayerState.t) : R :=
  (fst (fst (PlayerState.position p)) + WORLD_SIZE) * scale.
Definition playerY (p : PlayerState.t) : R :=
  (snd (PlayerState.position p) + WORLD_SIZE) * scale.

(** Line 127: the width of the speed bar, in percent. *)
Definition speedBar (p : PlayerState.t) : R :=
  Rmin ((PlayerState.speed p / 400) * 100) 100.
End Minimap.

Module Radio.
(** Lines 28-34 of the overlay: one firing of the interval.  [u] is the
    draw of [Math.random], [o] what the request does, [newId] and [now] the
    id and the time of the message.  A rejected promise would leave the
    callback before [addMessage]. *)
Definition chatter (u : R) (o : GeminiService.outcome) (newId now : string)
           (log : list GameOverlay.RadioMessage) : list GameOverlay.RadioMessage :=
  if Rgtb u 0.4 then
    match GeminiService.fetchRadioChatter o with
    | GeminiService.Resolved text =>
        GameOverlay.addMessage newId now "VAPOR_NET" text log
    | GeminiService.Rejected _ => log
    end
  else log.

(** Lines 18-21: the message of the first connection. *)
Definition connect (newId now : string) (log : list GameOverlay.RadioMessage)
  : list GameOverlay.RadioMessage :=
  GameOverlay.addMessage newId now "SYSTEM" "DreamLink Connected." log.

(** The messages [addMessage] is called with, oldest first, applied to a log. *)
Definition addAll (messages : list GameOverlay.RadioMessage)
           (log : list GameOverlay.RadioMessage) : list GameOverlay.RadioMessage :=
  fold_left (fun l m => GameOverlay.addMessage (GameOverlay.id m) (GameOverlay.timestamp m)
                          (GameOverlay.sender m) (GameOverlay.text m) l)
            messages log.
End Radio.

(** ** Shapes of data the properties speak of *)

Module Shape.
(** A building as the loop of [App.tsx] can push it: inside the placement
    square, outside the clear centre, with dimensions in their ranges. *)
Definition wellPlaced (b : BuildingData.t) : Prop :=
  -180 <= BuildingData.x b < 180 /\ -180 <= BuildingData.z b < 180 /\
  (15 <= Rabs (BuildingData.x b) \/ 15 <= Rabs (BuildingData.z b)) /\
  15 <= BuildingData.height b < 70 /\
  3 <= BuildingData.width b < 8 /\ 3 <= BuildingData.depth b < 8 /\
  In (BuildingData.color b) Generator.TENDER_PALETTE.

(** A rectangle that lies on the minimap. *)
Definition onMap (r : Minimap.rect) : Prop :=
  0 <= Minimap.left r /\ Minimap.left r + Minimap.width r <= Minimap.MAP_SIZE /\
  0 <= Minimap.top r /\ Minimap.top r + Minimap.height r <= Minimap.MAP_SIZE.

(** Bytes that are a sequence of the given codes. *)
Inductive madeOf (codes : list (list ascii)) : list ascii -> Prop :=
| madeOf_nil : madeOf codes []
| madeOf_code w rest :
    In w codes -> madeOf codes rest -> madeOf codes (w ++ rest)%list.

(** Bytes of white space only. *)
Definition WhiteSpaces : list ascii -> Prop := madeOf GeminiService.whiteSpaceCodes.

(** The last [n] entries of a list. *)
Definition lastN {A : Type} (n : nat) (l : list A) : list A :=
  skipn (List.length l - n) l.
End Shape.

(** ** The same callback in the arithmetic the engine runs

    [Player] above computes in exact real numbers.  Where a property rests
    on an exact cancellation, the callback is also given here as it runs:
    every number is an IEEE 754 binary64 value and every operation rounds.
    [Math.sin] and [Math.cos], which the engine approximates, are
    parameters. *)

Module Ieee.
Import Stdlib.Floats.Floats.
#[local] Set Warnings "-inexact-float".
Local Open Scope float_scope.

(** [Math.min] and [Math.max]: NaN if an argument is NaN, and -0 below +0. *)
Definition Math_min (a b : float) : float :=
  if is_nan a || is_nan b then nan
  else if a <? b then a
  else if b <? a then b
  else if get_sign a then a else b.

Definition Math_max (a b : float) : float :=
  if is_nan a || is_nan b then nan
  else if a <? b then b
  else if b <? a then a
  else if get_sign a then b else a.

Module Quaternion.
Record t : Type := mk { x : float; y : float; z : float; w : float }.
End Quaternion.

Module Vector3.
Record t : Type := mk { x : float; y : float; z : float }.

Definition add (a v : t) : t := mk (x a + x v) (y a + y v) (z a + z v).

Definition multiplyScalar (v : t) (s : float) : t := mk (x v * s) (y v * s) (z v * s).

Definition applyQuaternion (v : t) (q : Quaternion.t) : t :=
  let qx := Quaternion.x q in
  let qy := Quaternion.y q in
  let qz := Quaternion.z q in
  let qw := Quaternion.w q in
  let tx := 2 * (qy * z v - qz * y v) in
  let ty := 2 * (qz * x v - qx * z v) in
  let tz := 2 * (qx * y v - qy * x v) in
  mk (x v + qw * tx + qy * tz - qz * ty)
     (y v + qw * ty + qz * tx - qx * tz)
     (z v + qw * tz + qx * ty - qy * tx).

Definition distanceToSquared (a v : t) : float :=
  let dx := x a - x v in
  let dy := y a - y v in
  let dz := z a - z v in
  dx * dx + dy * dy + dz * dz.

Definition distanceTo (a v : t) : float := sqrt (distanceToSquared a v).
End Vector3.

Definition lerp (x y t : float) : float := (1 - t) * x + t * y.

Module BuildingData.
Record t : Type := mk {
  x : float;
  z : float;
  width : float;
  height : float;
  depth : float;
  color : string
}.
End BuildingData.

Import CarControls.

Record refs : Type := mkRefs {
  position : Vector3.t;
  rotation_y : float;
  rotation_z : float;
  speedRef : float;
  impactRef : float
}.

Definition initial : refs := mkRefs (Vector3.mk 0 0 0) 0 0 0 0.

Definition maxSpeed (controls : CarControls.t) : float :=
  if boost controls then 50 else 25.
Definition accel (delta : float) : float := 20 * delta.
Definition rotSpeed (delta : float) : float := 2.5 * delta.
Definition friction : float := 0.97.

(** Lines 164-169. *)
Definition updateSpeed (controls : CarControls.t) (delta speed : float) : float :=
  let s1 := if forward controls
            then Math_min (speed + accel delta) (maxSpeed controls) else speed in
  let s2 := if backward controls
            then Math_max (s1 - accel delta) (- maxSpeed controls / 2) else s1 in
  if negb (forward controls) && negb (backward controls)
  then s2 * friction else s2.

(** Lines 172-175. *)
Definition updateRotationY (controls : CarControls.t) (delta speed yaw : float) : float :=
  if 0.1 <? abs speed then
    let y1 := if left controls then yaw + rotSpeed delta else yaw in
    if right controls then y1 - rotSpeed delta else y1
  else yaw.

(** Lines 178-182. *)
Definition updateAltitude (controls : CarControls.t) (delta y : float) : float :=
  let y1 := if up controls then y + 15 * delta else y in
  let y2 := if down controls then y1 - 15 * delta else y1 in
  Math_max (-18) (Math_min y2 80).

(** Lines 159-182 on the whole state. *)
Definition physics (controls : CarControls.t) (delta : float) (s : refs) : refs :=
  let speed := updateSpeed controls delta (speedRef s) in
  let yaw := updateRotationY controls delta speed (rotation_y s) in
  let p := position s in
  mkRefs (Vector3.mk (Vector3.x p)
                     (updateAltitude controls delta (Vector3.y p))
                     (Vector3.z p))
         yaw (rotation_z s) speed (impactRef s).

Section Trigonometry.
Variables sin cos : float -> float.

(** [Quaternion.setFromEuler], order XYZ, with the products in the order
    the library writes them. *)
Definition setFromEuler (ex ey ez : float) : Quaternion.t :=
  let c1 := cos (ex / 2) in
  let c2 := cos (ey / 2) in
  let c3 := cos (ez / 2) in
  let s1 := sin (ex / 2) in
  let s2 := sin (ey / 2) in
  let s3 := sin (ez / 2) in
  Quaternion.mk (s1 * c2 * c3 + c1 * s2 * s3)
                (c1 * s2 * c3 - s1 * c2 * s3)
                (c1 * c2 * s3 + s1 * s2 * c3)
                (c1 * c2 * c3 - s1 * s2 * s3).

Definition quaternion (s : refs) : Quaternion.t :=
  setFromEuler 0 (rotation_y s) (rotation_z s).

(** Lines 185-188. *)
Definition direction (s : refs) : Vector3.t :=
  Vector3.applyQuaternion (Vector3.mk 0 0 (-1)) (quaternion s).

Definition moveVector (delta : float) (s : refs) : Vector3.t :=
  Vector3.multiplyScalar (direction s) (speedRef s * delta).

Definition nextPos (delta : float) (s : refs) : Vector3.t :=
  Vector3.add (position s) (moveVector delta s).

Definition CAR_HW : float := 1.0.
Definition CAR_HL : float := 2.0.

(** Lines 200-208. *)
Definition hitsBuilding (p : Vector3.t) (b : BuildingData.t) : bool :=
  let bMinX := BuildingData.x b - BuildingData.width b / 2 - CAR_HW in
  let bMaxX := BuildingData.x b + BuildingData.width b / 2 + CAR_HW in
  let bMinZ := BuildingData.z b - BuildingData.depth b / 2 - CAR_HL in
  let bMaxZ := BuildingData.z b + BuildingData.depth b / 2 + CAR_HL in
  let bMaxY := -20 + BuildingData.height b + 1 in
  (bMinX <? Vector3.x p) && (Vector3.x p <? bMaxX) &&
  (bMinZ <? Vector3.z p) && (Vector3.z p <? bMaxZ) &&
  (Vector3.y p <? bMaxY).

Fixpoint collidesBuildings (p : Vector3.t) (buildings : list BuildingData.t) : bool :=
  match buildings with
  | [] => false
  | b :: rest => if hitsBuilding p b then true else collidesBuildings p rest
  end.

(** Lines 218-219. *)
Definition hitsNpc (p npcPos : Vector3.t) : bool :=
  if (abs (Vector3.x npcPos - Vector3.x p) <? 4) &&
     (abs (Vector3.z npcPos - Vector3.z p) <? 4)
  then Vector3.distanceTo p npcPos <? 3.5
  else false.

Fixpoint collidesNpcs (p : Vector3.t) (npcs : list Vector3.t) : bool :=
  match npcs with
  | [] => false
  | npcPos :: rest => if hitsNpc p npcPos then true else collidesNpcs p rest
  end.

Definition collided (buildings : list BuildingData.t) (npcs : list Vector3.t)
           (p : Vector3.t) : bool :=
  if collidesBuildings p buildings then true
  else collidesNpcs p npcs.

(** Lines 227-234. *)
Definition respond (hit : bool) (delta : float) (s : refs) : refs :=
  if hit then
    mkRefs (Vector3.add (position s) (Vector3.multiplyScalar (moveVector delta s) (-2)))
           (rotation_y s) (rotation_z s) (speedRef s * -0.5) 0.5
  else
    mkRefs (nextPos delta s)
           (rotation_y s) (rotation_z s) (speedRef s) (impactRef s).

(** Lines 237-241. *)
Definition bankTarget (controls : CarControls.t) : float :=
  if left controls then 0.35 else if right controls then -0.35 else 0.

Definition bank (controls : CarControls.t) (s : refs) : refs :=
  mkRefs (position s) (rotation_y s)
         (lerp (rotation_z s) (bankTarget controls) 0.1)
         (speedRef s) (impactRef s).

(** Lines 248-253. *)
Definition shake (delta : float) (s : refs) : refs :=
  mkRefs (position s) (rotation_y s) (rotation_z s) (speedRef s)
         (if 0 <? impactRef s then impactRef s - delta else impactRef s).

Definition frameCollided (controls : CarControls.t) (buildings : list BuildingData.t)
           (npcs : list Vector3.t) (delta : float) (s : refs) : bool :=
  let s1 := physics controls delta s in
  collided buildings npcs (nextPos delta s1).

(** One call of the frame callback. *)
Definition useFrame (controls : CarControls.t) (buildings : list BuildingData.t)
           (npcs : list Vector3.t) (delta : float) (s : refs) : refs :=
  let s1 := physics controls delta s in
  shake delta
    (bank controls (respond (collided buildings npcs (nextPos delta s1)) delta s1)).

(** Successive frames with the same NPC positions, first to last. *)
Fixpoint run (buildings : list BuildingData.t) (npcs : list Vector3.t)
         (frames : list (CarControls.t * float)) (s : refs) : refs :=
  match frames with
  | [] => s
  | (controls, delta) :: rest =>
      run buildings npcs rest (useFrame controls buildings npcs delta s)
  end.
End Trigonometry.
End Ieee.

(** ** [Math.sin] and [Math.cos] at the arguments of the runs below

    The values are the correctly rounded ones, which the fdlibm and the
    glibc implementations both return at these arguments; any other
    argument reads NaN. *)

Module Engine.
Import Stdlib.Floats.Floats.
#[local] Set Warnings "-inexact-float".
Local Open Scope float_scope.

Fixpoint lookup (table : list (float * float)) (x : float) : float :=
  match table with
  | [] => nan
  | (argument, value) :: rest => if argument =? x then value else lookup rest x
  end.

Definition sin : float -> float :=
  lookup [(0, 0);
          (0.017499999999999998, 0.017499106784510804);
          (0.03325, 0.033243873679807134);
          (0.047425, 0.0474072244957742);
          (0.0601825, 0.06014617707838344);
          (0.07166425, 0.07160292396202135);
          (3.75, -0.5715613187423437)].

Definition cos : float -> float :=
  lookup [(0, 1);
          (0.017499999999999998, 0.9998468789078377);
          (0.03325, 0.999447269675975);
          (0.047425, 0.9988756454462223);
          (0.0601825, 0.998189579880924);
          (0.07166425, 0.9974332164511511);
          (3.75, -0.8205593573395608)].
End Engine.

(** ** A stalled frame at the floor *)

Module Stall.
Import Stdlib.Floats.Floats.
#[local] Set Warnings "-inexact-float".
Local Open Scope float_scope.

(** Left and down held. *)
Definition bankLeft : CarControls.t :=
  CarControls.mk false false true false false true false.

(** Down held. *)
Definition sink : CarControls.t :=
  CarControls.mk false false false false false true false.

(** Forward, left, down and boost held. *)
Definition dive : CarControls.t :=
  CarControls.mk true false true false false true true.

(** Five frames of a quarter of a second that bank the car to the left
    while it sinks to the floor, at rest. *)
Definition banking : list (CarControls.t * float) :=
  [(bankLeft, 0.25); (bankLeft, 0.25); (bankLeft, 0.25); (bankLeft, 0.25); (bankLeft, 0.25)].

(** The same five frames without the left key. *)
Definition sinking : list (CarControls.t * float) :=
  [(sink, 0.25); (sink, 0.25); (sink, 0.25); (sink, 0.25); (sink, 0.25)].

(** The state after each. *)
Definition banked : Ieee.refs :=
  Ieee.run Engine.sin Engine.cos [] [] banking Ieee.initial.
Definition level : Ieee.refs :=
  Ieee.run Engine.sin Engine.cos [] [] sinking Ieee.initial.

(** A building one unit high, whose top plus clearance is at -18. *)
Definition curb : Ieee.BuildingData.t :=
  Ieee.BuildingData.mk (-140) (-52) 4 1 4 "#ff99c8".

(** A speed of 16 times the smallest double, about 8e-323. *)
Definition crawl : float := 0x1p-1070.
End Stall.

(** ** Concrete frames used to exercise the callbacks *)

Module Scenario.
(** No key held. *)
Definition idle : CarControls.t :=
  CarControls.mk false false false false false false false.

(** Only the backward key, with or without boost. *)
Definition brake (boost : bool) : CarControls.t :=
  CarControls.mk false true false false false false boost.

(** Only the climb key. *)
Definition climb : CarControls.t :=
  CarControls.mk false false false false true false false.

(** Only the left key. *)
Definition steerLeft : CarControls.t :=
  CarControls.mk false false true false false false false.

(** A tower at (0, -20), 8 wide, 8 deep, 70 high: its inflated footprint
    is -5 < x < 5, -26 < z < -14, and it is hit below y = 51. *)
Definition towerAhead : BuildingData.t :=
  BuildingData.mk 0 (-20) 8 70 8 "#ff99c8".

(** The same tower standing on the origin: -5 < x < 5, -6 < z < 6, y < 51. *)
Definition towerHere : BuildingData.t :=
  BuildingData.mk 0 0 8 70 8 "#ff99c8".

(** The car at (0, 0, -13), heading along -z at speed 20. *)
Definition cruising : Player.refs :=
  Player.mkRefs (Vector3.mk 0 0 (-13)) 0 0 20 0.

(** The same car, leaning into a left turn. *)
Definition cruisingBanked : Player.refs :=
  Player.mkRefs (Vector3.mk 0 0 (-13)) 0 0.35 20 0.

(** Two drops of rain, the first just above the ground. *)
Definition drops : list R := [12; -19; 7; 3; 50; 9].

(** Draws of [Math.random] that alternate between 0.9 and 0.25. *)
Definition draws (n : nat) : R := if Nat.even n then 0.9 else 0.25.

(** An NPC car one step short of the upper bound. *)
Definition npcNearBound : Vector3.t := Vector3.mk 40 12 190.
End Scenario.

(** * Properties *)

(** ** Numbers *)

Lemma Rltb_true (a b : R) : Rltb a b = true <-> a < b.
Proof. unfold Rltb. destruct (Rlt_dec a b); split; intros; try easy; lra. Qed.

Lemma Rltb_false (a b : R) : Rltb a b = false <-> b <= a.
Proof. unfold Rltb. destruct (Rlt_dec a b); split; intros; try easy; lra. Qed.

Lemma Rgtb_true (a b : R) : Rgtb a b = true <-> b < a.
Proof. apply Rltb_true. Qed.

Lemma Rgtb_false (a b : R) : Rgtb a b = false <-> a <= b.
Proof. apply Rltb_false. Qed.

(** Decides the comparisons, minima, maxima and absolute values of a goal
    whose numbers are literals. *)
Ltac numbers :=
  unfold Rgtb, Rltb, Rmin, Rmax, Rabs in *;
  repeat match goal with
         | |- context [Rlt_dec ?a ?b] => destruct (Rlt_dec a b); try lra
         | |- context [Rle_dec ?a ?b] => destruct (Rle_dec a b); try lra
         | |- context [Rcase_abs ?a] => destruct (Rcase_abs a); try lra
         | H : context [Rlt_dec ?a ?b] |- _ => destruct (Rlt_dec a b); try lra
         | H : context [Rle_dec ?a ?b] |- _ => destruct (Rle_dec a b); try lra
         | H : context [Rcase_abs ?a] |- _ => destruct (Rcase_abs a); try lra
         end;
  try reflexivity; try lra.

Lemma half_zero : 0 / 2 = 0.
Proof. lra. Qed.

Lemma double_sine (a : R) : sin a = 2 * sin (a / 2) * cos (a / 2).
Proof. rewrite <- sin_2a. f_equal. lra. Qed.

Lemma double_cosine (a : R) : cos a = 1 - 2 * sin (a / 2) * sin (a / 2).
Proof. rewrite <- cos_2a_sin. f_equal. lra. Qed.

(** ** The forward axis of the car *)

Section Direction.
Import Player.
Variable s : refs.

Lemma quaternion_components :
  quaternion s =
  Quaternion.mk (sin (rotation_y s / 2) * sin (rotation_z s / 2))
                (sin (rotation_y s / 2) * cos (rotation_z s / 2))
                (cos (rotation_y s / 2) * sin (rotation_z s / 2))
                (cos (rotation_y s / 2) * cos (rotation_z s / 2)).
Proof.
  unfold quaternion, Quaternion.setFromEuler.
  rewrite half_zero, sin_0, cos_0. f_equal; ring.
Qed.

(** The forward axis stays horizontal. *)
Lemma direction_y : Vector3.y (direction s) = 0.
Proof.
  unfold direction. rewrite quaternion_components.
  unfold Vector3.applyQuaternion; simpl. ring.
Qed.

Lemma direction_x : Vector3.x (direction s) = - sin (rotation_y s).
Proof.
  unfold direction. rewrite quaternion_components.
  unfold Vector3.applyQuaternion; simpl.
  rewrite (double_sine (rotation_y s)).
  pose proof (sin2_cos2 (rotation_z s / 2)) as H. unfold Rsqr in H.
  set (a := sin (rotation_y s / 2)) in *. set (b := cos (rotation_y s / 2)) in *.
  set (c := sin (rotation_z s / 2)) in *. set (d := cos (rotation_z s / 2)) in *.
  replace (0 + b * d * (2 * (a * d * -1 - b * c * 0)) + a * d * (2 * (a * c * 0 - a * d * 0))
           - b * c * (2 * (b * c * 0 - a * c * -1)))
    with (- (2 * a * b) * (c * c + d * d)) by ring.
  rewrite H. ring.
Qed.

Lemma direction_z : Vector3.z (direction s) = - cos (rotation_y s).
Proof.
  unfold direction. rewrite quaternion_components.
  unfold Vector3.applyQuaternion; simpl.
  rewrite (double_cosine (rotation_y s)).
  pose proof (sin2_cos2 (rotation_z s / 2)) as H. unfold Rsqr in H.
  set (a := sin (rotation_y s / 2)) in *. set (b := cos (rotation_y s / 2)) in *.
  set (c := sin (rotation_z s / 2)) in *. set (d := cos (rotation_z s / 2)) in *.
  replace (-1 + b * d * (2 * (a * c * 0 - a * d * 0)) + a * c * (2 * (b * c * 0 - a * c * -1))
           - a * d * (2 * (a * d * -1 - b * c * 0)))
    with (-1 + 2 * a * a * (c * c + d * d)) by ring.
  rewrite H. ring.
Qed.

Lemma direction_closed :
  direction s = Vector3.mk (- sin (rotation_y s)) 0 (- cos (rotation_y s)).
Proof.
  pose proof direction_x as Hx. pose proof direction_y as Hy.
  pose proof direction_z as Hz.
  destruct (direction s) as [dx dy dz]; simpl in *. congruence.
Qed.

Lemma moveVector_y (delta : R) : Vector3.y (moveVector delta s) = 0.
Proof.
  unfold moveVector, Vector3.multiplyScalar; cbn [Vector3.y].
  rewrite direction_y. ring.
Qed.
End Direction.

(** ** The fields of the state after one frame *)

Section FrameFields.
Import Player.
Variables (controls : CarControls.t) (buildings : list BuildingData.t)
          (npcs : list Vector3.t) (delta : R) (s : refs).

Lemma useFrame_speedRef :
  speedRef (useFrame controls buildings npcs delta s) =
  if frameCollided controls buildings npcs delta s
  then updateSpeed controls delta (speedRef s) * -0.5
  else updateSpeed controls delta (speedRef s).
Proof.
  unfold useFrame, afterResponse, frameCollided, respond.
  destruct (collided _ _ _); reflexivity.
Qed.

Lemma useFrame_rotation_y :
  rotation_y (useFrame controls buildings npcs delta s) =
  updateRotationY controls delta (updateSpeed controls delta (speedRef s)) (rotation_y s).
Proof.
  unfold useFrame, afterResponse, respond.
  destruct (collided _ _ _); reflexivity.
Qed.

Lemma useFrame_rotation_z :
  rotation_z (useFrame controls buildings npcs delta s) =
  MathUtils.lerp (rotation_z s) (bankTarget controls) 0.1.
Proof.
  unfold useFrame, afterResponse, respond.
  destruct (collided _ _ _); reflexivity.
Qed.

Lemma useFrame_position :
  position (useFrame controls buildings npcs delta s) =
  if frameCollided controls buildings npcs delta s
  then Vector3.add (position (physics controls delta s))
                   (pushBack delta (physics controls delta s))
  else nextPos delta (physics controls delta s).
Proof.
  unfold useFrame, afterResponse, frameCollided, respond.
  destruct (collided _ _ _); reflexivity.
Qed.

Lemma useFrame_altitude :
  Vector3.y (position (useFrame controls buildings npcs delta s)) =
  updateAltitude controls delta (Vector3.y (position s)).
Proof.
  rewrite useFrame_position.
  destruct (frameCollided _ _ _ _ _).
  - unfold pushBack, Vector3.add, Vector3.multiplyScalar; cbn [Vector3.y].
    rewrite moveVector_y. unfold physics; cbn [position Vector3.y]. ring.
  - unfold nextPos, Vector3.add; cbn [Vector3.y].
    rewrite moveVector_y. unfold physics; cbn [position Vector3.y]. ring.
Qed.
End FrameFields.

Lemma updateAltitude_range (controls : CarControls.t) (delta y : R) :
  -18 <= Player.updateAltitude controls delta y <= 80.
Proof.
  unfold Player.updateAltitude.
  destruct (CarControls.up controls), (CarControls.down controls); numbers.
Qed.

Lemma updateAltitude_fixed (controls : CarControls.t) (delta y : R) :
  CarControls.up controls = false -> CarControls.down controls = false ->
  -18 <= y <= 80 -> Player.updateAltitude controls delta y = y.
Proof.
  intros Hu Hd Hy. unfold Player.updateAltitude. rewrite Hu, Hd. numbers.
Qed.

(** ** The NPC test *)

Lemma distanceToSquared_nonneg (a v : Vector3.t) : 0 <= Vector3.distanceToSquared a v.
Proof.
  unfold Vector3.distanceToSquared; cbv zeta.
  pose proof (Rle_0_sqr (Vector3.x a - Vector3.x v)) as Hx.
  pose proof (Rle_0_sqr (Vector3.y a - Vector3.y v)) as Hy.
  pose proof (Rle_0_sqr (Vector3.z a - Vector3.z v)) as Hz.
  unfold Rsqr in *. lra.
Qed.

(** The radius check of line 219 is a check of the squared distance. *)
Lemma distanceTo_within (a v : Vector3.t) (r : R) :
  0 < r -> (Vector3.distanceTo a v < r <-> Vector3.distanceToSquared a v < r * r).
Proof.
  intros Hr. unfold Vector3.distanceTo.
  pose proof (distanceToSquared_nonneg a v) as Hd.
  pose proof (sqrt_pos (Vector3.distanceToSquared a v)) as Hs.
  pose proof (sqrt_sqrt _ Hd) as Hsq.
  split; intros H.
  - nra.
  - destruct (Rlt_dec (sqrt (Vector3.distanceToSquared a v)) r) as [|Hn]; [assumption|].
    exfalso. nra.
Qed.

Lemma hitsNpc_true (p npcPos : Vector3.t) :
  Player.hitsNpc p npcPos = true <->
  Rabs (Vector3.x npcPos - Vector3.x p) < 4 /\
  Rabs (Vector3.z npcPos - Vector3.z p) < 4 /\
  Vector3.distanceToSquared p npcPos < 3.5 * 3.5.
Proof.
  unfold Player.hitsNpc.
  rewrite <- (distanceTo_within p npcPos 3.5) by lra.
  destruct (Rltb (Rabs (Vector3.x npcPos - Vector3.x p)) 4) eqn:Ex;
    destruct (Rltb (Rabs (Vector3.z npcPos - Vector3.z p)) 4) eqn:Ez; simpl;
    rewrite ?Rltb_true in *; rewrite ?Rltb_false in *;
    split; intros H; try discriminate; try tauto; try lra.
Qed.

(** An NPC car three units to the right of the proposed position is hit; one
    three units to the right and two above is not. *)
Example npc_beside_is_hit :
  Player.hitsNpc (Vector3.mk 0 0 0) (Vector3.mk 3 0 0) = true /\
  Player.hitsNpc (Vector3.mk 0 0 0) (Vector3.mk 3 2 0) = false.
Proof.
  split.
  - apply hitsNpc_true. unfold Vector3.distanceToSquared; simpl.
    repeat split; numbers.
  - destruct (Player.hitsNpc (Vector3.mk 0 0 0) (Vector3.mk 3 2 0)) eqn:E; [|reflexivity].
    apply hitsNpc_true in E. unfold Vector3.distanceToSquared in E; simpl in E. lra.
Qed.

(** ** C1: the reverse cap *)

(** C1, as stated, fails: the bound the backward branch clamps to is -12.5
    without boost and -25 with boost.  From rest, one second of braking ends
    at -12.5 without boost and at -20 with boost, below the bound of the
    frame without boost, so no single bound clamps both frames. *)
Lemma reverse_cap_follows_boost :
  Player.reverseBound (Scenario.brake false) = -12.5 /\
  Player.reverseBound (Scenario.brake true) = -25 /\
  Player.updateSpeed (Scenario.brake false) 1 0 = -12.5 /\
  Player.updateSpeed (Scenario.brake true) 1 0 = -20 /\
  Player.updateSpeed (Scenario.brake true) 1 0 < Player.reverseBound (Scenario.brake false) /\
  ~ (exists bound : R, forall controls delta speed,
        CarControls.backward controls = true ->
        CarControls.forward controls = false ->
        Player.updateSpeed controls delta speed
        = Rmax (speed - Player.accel delta) bound).
Proof.
  assert (H1 : Player.updateSpeed (Scenario.brake false) 1 0 = -12.5).
  { unfold Player.updateSpeed, Player.reverseBound, Player.maxSpeed, Player.accel; simpl.
    numbers. }
  assert (H2 : Player.updateSpeed (Scenario.brake true) 1 0 = -20).
  { unfold Player.updateSpeed, Player.reverseBound, Player.maxSpeed, Player.accel; simpl.
    numbers. }
  assert (H3 : Player.reverseBound (Scenario.brake false) = -12.5).
  { unfold Player.reverseBound, Player.maxSpeed; simpl. lra. }
  assert (H4 : Player.reverseBound (Scenario.brake true) = -25).
  { unfold Player.reverseBound, Player.maxSpeed; simpl. lra. }
  repeat split; trivial; [rewrite H2, H3; lra|].
  intros [bound H].
  pose proof (H (Scenario.brake false) 1 0 eq_refl eq_refl) as Ha.
  pose proof (H (Scenario.brake true) 1 0 eq_refl eq_refl) as Hb.
  rewrite H1 in Ha. rewrite H2 in Hb. unfold Player.accel in *.
  revert Ha Hb. unfold Rmax. destruct (Rle_dec (0 - 20 * 1) bound); lra.
Qed.

(** C1, amended: with backward intent held the updated speed is clamped
    below by [-maxSpeed / 2], half the forward cap of the frame: -12.5
    without boost and -25 with boost. *)
Theorem reverse_cap_is_half_forward_cap (controls : CarControls.t) (delta speed : R) :
  CarControls.backward controls = true ->
  Player.reverseBound controls <= Player.updateSpeed controls delta speed /\
  Player.reverseBound controls = - Player.maxSpeed controls / 2 /\
  Player.reverseBound controls = (if CarControls.boost controls then -25 else -12.5) /\
  Player.maxSpeed controls = (if CarControls.boost controls then 50 else 25) /\
  (CarControls.forward controls = false ->
   Player.updateSpeed controls delta speed
   = Rmax (speed - Player.accel delta) (Player.reverseBound controls)).
Proof.
  intros Hb. unfold Player.updateSpeed, Player.reverseBound, Player.maxSpeed.
  rewrite Hb.
  destruct (CarControls.forward controls), (CarControls.boost controls); simpl;
    repeat split; try (intros; discriminate); try reflexivity; numbers.
Qed.

Lemma reverse_cap_is_half_forward_cap_witness :
  CarControls.backward (Scenario.brake true) = true /\
  Player.reverseBound (Scenario.brake true)
  <= Player.updateSpeed (Scenario.brake true) 1 0.
Proof.
  split; [reflexivity|].
  apply (reverse_cap_is_half_forward_cap (Scenario.brake true) 1 0). reflexivity.
Defined.

(** ** C3 and C4: the altitude clamp and the bank angle, in doubles *)

Module InDoubles.
Import Stdlib.Floats.Floats.
#[local] Set Warnings "-inexact-float".
Local Open Scope float_scope.

(** C3 fails on the doubles the code computes with.  From the initial state,
    with no building and no NPC car: five frames of 0.25 s with left and
    down held leave the car at rest at (0, -18, 0), banked by 0.1433285;
    then one stalled frame of 3 s with forward, left, down and boost held.
    The clamp of line 182 gives -18, but the forward axis has the y
    component -2^-56 left by the rounding of the quaternion products, the
    movement vector carries it, and line 233 commits the altitude
    -18.000000000000004, below the floor. *)
Theorem altitude_leaves_interval_in_doubles :
  Stall.banked = Ieee.mkRefs (Ieee.Vector3.mk 0 (-18) 0) 0 0.1433285 0 0 /\
  Ieee.Vector3.y (Ieee.position (Ieee.physics Stall.dive 3 Stall.banked)) = -18 /\
  Ieee.Vector3.y (Ieee.direction Engine.sin Engine.cos
                    (Ieee.physics Stall.dive 3 Stall.banked)) = -0x1p-56 /\
  Ieee.Vector3.y (Ieee.moveVector Engine.sin Engine.cos 3
                    (Ieee.physics Stall.dive 3 Stall.banked)) = -0x1.2cp-49 /\
  Ieee.frameCollided Engine.sin Engine.cos Stall.dive [] [] 3 Stall.banked = false /\
  Ieee.position (Ieee.useFrame Engine.sin Engine.cos Stall.dive [] [] 3 Stall.banked)
  = Ieee.Vector3.mk (-140.69999651621083) (-18.000000000000004) (-51.99529767525388) /\
  (Ieee.Vector3.y
     (Ieee.position (Ieee.useFrame Engine.sin Engine.cos Stall.dive [] [] 3 Stall.banked))
   <? -18) = true.
Proof. vm_compute. repeat split; reflexivity. Qed.

(** C4 fails on the doubles the code computes with.  The states [banked]
    and [level], both reached from the initial state, differ in the bank
    angle only: 0.1433285 against 0.  The same stalled frame takes the
    banked car to the altitude -18.000000000000004 and the level car to
    -18.  With a building whose top plus clearance is at -18 under the
    proposed position, the banked car collides and bounces to speed -25,
    and the level car passes at speed 50. *)
Theorem bank_angle_reaches_the_simulation_in_doubles :
  Stall.banked = Ieee.mkRefs (Ieee.Vector3.mk 0 (-18) 0) 0 0.1433285 0 0 /\
  Stall.level = Ieee.mkRefs (Ieee.Vector3.mk 0 (-18) 0) 0 0 0 0 /\
  Ieee.position (Ieee.useFrame Engine.sin Engine.cos Stall.dive [] [] 3 Stall.banked)
  = Ieee.Vector3.mk (-140.69999651621083) (-18.000000000000004) (-51.99529767525388) /\
  Ieee.position (Ieee.useFrame Engine.sin Engine.cos Stall.dive [] [] 3 Stall.level)
  = Ieee.Vector3.mk (-140.69999651621083) (-18) (-51.99529767525388) /\
  Ieee.frameCollided Engine.sin Engine.cos Stall.dive [Stall.curb] [] 3 Stall.banked = true /\
  Ieee.frameCollided Engine.sin Engine.cos Stall.dive [Stall.curb] [] 3 Stall.level = false /\
  Ieee.speedRef (Ieee.useFrame Engine.sin Engine.cos Stall.dive [Stall.curb] [] 3 Stall.banked)
  = -25 /\
  Ieee.speedRef (Ieee.useFrame Engine.sin Engine.cos Stall.dive [Stall.curb] [] 3 Stall.level)
  = 50 /\
  Ieee.position (Ieee.useFrame Engine.sin Engine.cos Stall.dive [Stall.curb] [] 3 Stall.banked)
  = Ieee.Vector3.mk 281.39999303242166 (-17.999999999999996) 103.99059535050776.
Proof. vm_compute. repeat split; reflexivity. Qed.

(** In doubles the friction of line 168 stops shrinking a speed of 16 times
    the smallest double: the rounded product is the speed itself. *)
Lemma friction_stalls_in_doubles :
  Ieee.updateSpeed Scenario.idle 0.25 Stall.crawl = Stall.crawl /\
  (0 <? Stall.crawl) = true.
Proof. vm_compute. split; reflexivity. Qed.
End InDoubles.

(** ** C2: the collision response *)

(** The frame of the scenario: cruising at speed 20 towards the tower, climb
    key held, a tenth of a second. *)
Lemma cruising_physics :
  Player.physics Scenario.climb 0.1 Scenario.cruising
  = Player.mkRefs (Vector3.mk 0 1.5 (-13)) 0 0 19.4 0.
Proof.
  unfold Player.physics, Player.updateSpeed, Player.updateRotationY,
    Player.updateAltitude, Player.friction; simpl.
  f_equal; [f_equal|..]; numbers.
Qed.

Lemma cruising_moveVector :
  Player.moveVector 0.1 (Player.mkRefs (Vector3.mk 0 1.5 (-13)) 0 0 19.4 0)
  = Vector3.mk 0 0 (-1.94).
Proof.
  unfold Player.moveVector. rewrite direction_closed.
  unfold Vector3.multiplyScalar; simpl. rewrite sin_0, cos_0. f_equal; lra.
Qed.

Lemma cruising_collides :
  Player.frameCollided Scenario.climb [Scenario.towerAhead] [] 0.1 Scenario.cruising = true.
Proof.
  unfold Player.frameCollided. rewrite cruising_physics.
  unfold Player.nextPos. rewrite cruising_moveVector.
  unfold Player.collided, Player.collidesBuildings, Player.hitsBuilding,
    Player.CAR_HW, Player.CAR_HL; simpl.
  numbers.
Qed.

(** C2, as stated, fails.  Cruising at speed 20 from (0, 0, -13) with the
    climb key held, the car hits the tower: it ends at (0, 1.5, -9.12) with
    speed -9.7, where the pre-step position plus the corrective displacement
    is (0, 0, -9.12) and the pre-step speed times the bounce factor is -10.
    The altitude update and the friction of the same frame come before the
    response. *)
Lemma collision_response_not_from_pre_step_values :
  Player.frameCollided Scenario.climb [Scenario.towerAhead] [] 0.1 Scenario.cruising = true /\
  Player.position (Player.useFrame Scenario.climb [Scenario.towerAhead] [] 0.1 Scenario.cruising)
  = Vector3.mk 0 1.5 (-9.12) /\
  Vector3.add (Player.position Scenario.cruising)
              (Player.pushBack 0.1 (Player.physics Scenario.climb 0.1 Scenario.cruising))
  = Vector3.mk 0 0 (-9.12) /\
  Player.speedRef (Player.useFrame Scenario.climb [Scenario.towerAhead] [] 0.1 Scenario.cruising)
  = -9.7 /\
  Player.speedRef Scenario.cruising * -0.5 = -10 /\
  Player.position (Player.useFrame Scenario.climb [Scenario.towerAhead] [] 0.1 Scenario.cruising)
  <> Vector3.add (Player.position Scenario.cruising)
                 (Player.pushBack 0.1 (Player.physics Scenario.climb 0.1 Scenario.cruising)) /\
  Player.speedRef Scenario.cruising <> 0 /\
  Player.speedRef (Player.useFrame Scenario.climb [Scenario.towerAhead] [] 0.1 Scenario.cruising)
  <> Player.speedRef Scenario.cruising * -0.5.
Proof.
  pose proof cruising_collides as Hhit.
  assert (Hpos : Player.position
                   (Player.useFrame Scenario.climb [Scenario.towerAhead] [] 0.1 Scenario.cruising)
                 = Vector3.mk 0 1.5 (-9.12)).
  { rewrite useFrame_position, Hhit, cruising_physics.
    unfold Player.pushBack. rewrite cruising_moveVector.
    unfold Vector3.add, Vector3.multiplyScalar; simpl. f_equal; lra. }
  assert (Hclaim : Vector3.add (Player.position Scenario.cruising)
                     (Player.pushBack 0.1 (Player.physics Scenario.climb 0.1 Scenario.cruising))
                   = Vector3.mk 0 0 (-9.12)).
  { rewrite cruising_physics. unfold Player.pushBack. rewrite cruising_moveVector.
    unfold Vector3.add, Vector3.multiplyScalar; simpl. f_equal; lra. }
  assert (Hspeed : Player.speedRef
                     (Player.useFrame Scenario.climb [Scenario.towerAhead] [] 0.1 Scenario.cruising)
                   = -9.7).
  { rewrite useFrame_speedRef, Hhit.
    change (Player.updateSpeed Scenario.climb 0.1 (Player.speedRef Scenario.cruising))
      with (Player.speedRef (Player.physics Scenario.climb 0.1 Scenario.cruising)).
    rewrite cruising_physics. simpl. lra. }
  repeat split; trivial.
  - simpl. lra.
  - rewrite Hpos, Hclaim. intros Heq.
    apply (f_equal Vector3.y) in Heq. simpl in Heq. lra.
  - simpl. lra.
  - rewrite Hspeed. simpl. lra.
Qed.

Lemma add_pushBack_is_nextPos (p v : Vector3.t) :
  Vector3.add p (Vector3.multiplyScalar v (-2)) = Vector3.add p v ->
  v = Vector3.mk 0 0 0.
Proof.
  destruct p as [px py pz], v as [a b c].
  unfold Vector3.add, Vector3.multiplyScalar; simpl.
  intros H. injection H as Hx Hy Hz. f_equal; lra.
Qed.

(** C2, amended: in a frame whose collision test reports a hit, the committed
    position is the position after the altitude update of that frame (x and
    z as before the frame, y moved by the up/down intents and clamped) plus
    -2 times the movement vector, and it is the proposed position only when
    the movement vector is zero; the speed is the speed after the
    acceleration, braking and friction of that frame times -0.5, of opposite
    sign and half the magnitude when nonzero; the impact timer is armed to
    0.5 and, run down once by the same frame, ends at 0.5 - delta. *)
Theorem collision_response (controls : CarControls.t)
        (buildings : list BuildingData.t) (npcs : list Vector3.t)
        (delta : R) (s : Player.refs) :
  Player.frameCollided controls buildings npcs delta s = true ->
  let moved := Player.physics controls delta s in
  let s' := Player.useFrame controls buildings npcs delta s in
  Player.position moved
  = Vector3.mk (Vector3.x (Player.position s))
               (Player.updateAltitude controls delta (Vector3.y (Player.position s)))
               (Vector3.z (Player.position s)) /\
  Player.speedRef moved = Player.updateSpeed controls delta (Player.speedRef s) /\
  Player.position s'
  = Vector3.add (Player.position moved)
                (Vector3.multiplyScalar (Player.moveVector delta moved) (-2)) /\
  (Player.position s' = Player.nextPos delta moved ->
   Player.moveVector delta moved = Vector3.mk 0 0 0) /\
  Player.speedRef s' = Player.speedRef moved * -0.5 /\
  (Player.speedRef moved <> 0 ->
   Player.speedRef s' * Player.speedRef moved < 0 /\
   Rabs (Player.speedRef s') = 0.5 * Rabs (Player.speedRef moved)) /\
  Player.impactRef (Player.afterResponse controls buildings npcs delta s) = 0.5 /\
  Player.impactRef s' = 0.5 - delta.
Proof.
  intros Hhit moved s'.
  assert (Hpos : Player.position s'
                 = Vector3.add (Player.position moved)
                     (Vector3.multiplyScalar (Player.moveVector delta moved) (-2))).
  { unfold s'. rewrite useFrame_position, Hhit. reflexivity. }
  assert (Hspeed : Player.speedRef s' = Player.speedRef moved * -0.5).
  { unfold s'. rewrite useFrame_speedRef, Hhit. reflexivity. }
  assert (Harm : Player.impactRef (Player.afterResponse controls buildings npcs delta s) = 0.5).
  { unfold Player.afterResponse. unfold Player.frameCollided in Hhit. rewrite Hhit.
    reflexivity. }
  repeat split; trivial.
  - rewrite Hpos. unfold Player.nextPos. apply add_pushBack_is_nextPos.
  - rewrite Hspeed. nra.
  - rewrite Hspeed. numbers.
  - unfold s', Player.useFrame, Player.shake, Player.bank; cbn [Player.impactRef].
    rewrite Harm. numbers.
Qed.

Lemma collision_response_witness :
  Player.frameCollided Scenario.climb [Scenario.towerAhead] [] 0.1 Scenario.cruising = true /\
  Player.speedRef (Player.useFrame Scenario.climb [Scenario.towerAhead] [] 0.1 Scenario.cruising)
  = Player.speedRef (Player.physics Scenario.climb 0.1 Scenario.cruising) * -0.5.
Proof.
  split; [exact cruising_collides|].
  apply (collision_response Scenario.climb [Scenario.towerAhead] [] 0.1 Scenario.cruising).
  exact cruising_collides.
Defined.

(** ** C5: the dead zone of the steering *)

(** C5: in a frame whose speed, when the rotation step reads it, is at most
    0.1 in magnitude, the heading is left as it was whatever the turn
    intents; the position, the speed and the impact timer are those of the
    same frame with both turn intents released, and the bank angle moves a
    tenth of the way to the target of the turn intents. *)
Theorem dead_zone_keeps_heading (controls : CarControls.t)
        (buildings : list BuildingData.t) (npcs : list Vector3.t)
        (delta : R) (s : Player.refs) :
  Rabs (Player.updateSpeed controls delta (Player.speedRef s)) <= 0.1 ->
  let s' := Player.useFrame controls buildings npcs delta s in
  let released := Player.useFrame (Player.withoutTurn controls) buildings npcs delta s in
  Player.rotation_y s' = Player.rotation_y s /\
  Player.position s' = Player.position released /\
  Player.speedRef s' = Player.speedRef released /\
  Player.impactRef s' = Player.impactRef released /\
  Player.rotation_y released = Player.rotation_y s /\
  Player.rotation_z s'
  = MathUtils.lerp (Player.rotation_z s) (Player.bankTarget controls) 0.1.
Proof.
  intros Hslow s' released.
  assert (Hphys : Player.physics controls delta s
                  = Player.physics (Player.withoutTurn controls) delta s).
  { unfold Player.physics, Player.updateSpeed, Player.updateRotationY,
      Player.updateAltitude, Player.reverseBound, Player.maxSpeed in *.
    cbn [Player.withoutTurn CarControls.forward CarControls.backward CarControls.left
         CarControls.right CarControls.up CarControls.down CarControls.boost] in *.
    f_equal.
    match goal with
    | |- (if Rgtb ?a ?b then _ else _) = _ =>
        replace (Rgtb a b) with false by (symmetry; apply Rgtb_false; exact Hslow)
    end.
    reflexivity. }
  assert (Hresp : Player.afterResponse controls buildings npcs delta s
                  = Player.afterResponse (Player.withoutTurn controls) buildings npcs delta s).
  { unfold Player.afterResponse. rewrite Hphys. reflexivity. }
  assert (Hyaw : Player.rotation_y s' = Player.rotation_y s).
  { unfold s'. rewrite useFrame_rotation_y. unfold Player.updateRotationY.
    replace (Rgtb _ 0.1) with false by (symmetry; apply Rgtb_false; exact Hslow).
    reflexivity. }
  unfold s', released in *. unfold Player.useFrame in *. rewrite <- Hresp.
  repeat split; try reflexivity; try exact Hyaw.
  unfold Player.afterResponse, Player.respond.
  destruct (Player.collided _ _ _); reflexivity.
Qed.

Lemma dead_zone_keeps_heading_witness :
  Rabs (Player.updateSpeed Scenario.steerLeft 1 (Player.speedRef Player.initial)) <= 0.1 /\
  Player.rotation_y (Player.useFrame Scenario.steerLeft [] [] 1 Player.initial)
  = Player.rotation_y Player.initial.
Proof.
  assert (H : Rabs (Player.updateSpeed Scenario.steerLeft 1 (Player.speedRef Player.initial))
              <= 0.1).
  { unfold Player.updateSpeed, Player.friction; simpl. numbers. }
  split; [exact H|].
  apply (dead_zone_keeps_heading Scenario.steerLeft [] [] 1 Player.initial H).
Defined.

(** A car at most 0.1 fast with neither the forward nor the backward key
    held is still that slow when the rotation step reads its speed, so it
    keeps its heading. *)
Corollary slow_coasting_car_keeps_heading (controls : CarControls.t)
          (buildings : list BuildingData.t) (npcs : list Vector3.t)
          (delta : R) (s : Player.refs) :
  Rabs (Player.speedRef s) <= 0.1 ->
  CarControls.forward controls = false -> CarControls.backward controls = false ->
  Player.rotation_y (Player.useFrame controls buildings npcs delta s)
  = Player.rotation_y s.
Proof.
  intros Hslow Hf Hb. rewrite useFrame_rotation_y.
  unfold Player.updateRotationY, Player.updateSpeed, Player.friction.
  rewrite Hf, Hb; simpl.
  replace (Rgtb _ 0.1) with false; [reflexivity|].
  symmetry. apply Rgtb_false. revert Hslow. numbers.
Qed.

(** ** C7: friction *)

Lemma updateSpeed_coasting (controls : CarControls.t) (delta speed : R) :
  CarControls.forward controls = false -> CarControls.backward controls = false ->
  Player.updateSpeed controls delta speed = speed * Player.friction.
Proof. intros Hf Hb. unfold Player.updateSpeed. rewrite Hf, Hb. reflexivity. Qed.






(** ** C10: stuck inside a building *)

Lemma collidesBuildings_inside (buildings : list BuildingData.t) (p : Vector3.t) :
  Player.insideBuilding buildings p -> Player.collidesBuildings p buildings = true.
Proof.
  intros (b & Hin & Hhit). induction buildings as [|b0 rest IH]; [destruct Hin|].
  simpl. destruct (Player.hitsBuilding p b0) eqn:E; [reflexivity|].
  destruct Hin as [->|Hin]; [congruence|]. apply IH, Hin.
Qed.

Lemma reachable_altitude (buildings : list BuildingData.t) (s : Player.refs) :
  Player.reachable buildings s -> -18 <= Vector3.y (Player.position s) <= 80.
Proof.
  intros H. destruct H as [|controls npcs delta s H].
  - simpl. lra.
  - rewrite useFrame_altitude. apply updateAltitude_range.
Qed.

Lemma resting_nextPos (delta : R) (s : Player.refs) :
  Player.speedRef s = 0 -> Player.nextPos delta s = Player.position s.
Proof.
  intros H. unfold Player.nextPos, Player.moveVector. rewrite H.
  destruct (Player.position s) as [px py pz], (Player.direction s) as [dx dy dz].
  unfold Vector3.add, Vector3.multiplyScalar; simpl. f_equal; ring.
Qed.

Lemma resting_pushBack (delta : R) (s : Player.refs) :
  Player.speedRef s = 0 ->
  Vector3.add (Player.position s) (Player.pushBack delta s) = Player.position s.
Proof.
  intros H. unfold Player.pushBack, Player.moveVector. rewrite H.
  destruct (Player.position s) as [px py pz], (Player.direction s) as [dx dy dz].
  unfold Vector3.add, Vector3.multiplyScalar; simpl. f_equal; ring.
Qed.

(** One frame of the stuck car. *)
Lemma stuck_frame (controls : CarControls.t) (buildings : list BuildingData.t)
      (npcs : list Vector3.t) (delta : R) (s : Player.refs) :
  -18 <= Vector3.y (Player.position s) <= 80 ->
  Player.insideBuilding buildings (Player.position s) ->
  Player.speedRef s = 0 ->
  Player.coasting controls ->
  Player.frameCollided controls buildings npcs delta s = true /\
  Player.position (Player.useFrame controls buildings npcs delta s) = Player.position s /\
  Player.speedRef (Player.useFrame controls buildings npcs delta s) = 0 /\
  Player.rotation_y (Player.useFrame controls buildings npcs delta s) = Player.rotation_y s /\
  Player.impactRef (Player.afterResponse controls buildings npcs delta s) = 0.5 /\
  Player.impactRef (Player.useFrame controls buildings npcs delta s) = 0.5 - delta.
Proof.
  intros Hy Hin Hs (Hf & Hb & Hu & Hd).
  assert (Hspeed : Player.updateSpeed controls delta (Player.speedRef s) = 0).
  { rewrite updateSpeed_coasting, Hs by assumption. lra. }
  assert (Hpos : Player.position (Player.physics controls delta s) = Player.position s).
  { unfold Player.physics; cbn [Player.position].
    rewrite updateAltitude_fixed by assumption.
    destruct (Player.position s); reflexivity. }
  assert (Hrest : Player.speedRef (Player.physics controls delta s) = 0) by exact Hspeed.
  assert (Hhit : Player.frameCollided controls buildings npcs delta s = true).
  { unfold Player.frameCollided, Player.collided.
    rewrite (resting_nextPos _ _ Hrest), Hpos, (collidesBuildings_inside _ _ Hin).
    reflexivity. }
  assert (Harm : Player.impactRef (Player.afterResponse controls buildings npcs delta s) = 0.5).
  { unfold Player.afterResponse. unfold Player.frameCollided in Hhit. rewrite Hhit.
    reflexivity. }
  repeat split; trivial.
  - rewrite useFrame_position, Hhit, (resting_pushBack _ _ Hrest). exact Hpos.
  - rewrite useFrame_speedRef, Hhit, Hspeed. lra.
  - rewrite useFrame_rotation_y, Hspeed. unfold Player.updateRotationY.
    replace (Rgtb (Rabs 0) 0.1) with false; [reflexivity|].
    symmetry. apply Rgtb_false. rewrite Rabs_R0. lra.
  - unfold Player.useFrame, Player.shake, Player.bank; cbn [Player.impactRef].
    rewrite Harm. numbers.
Qed.

Lemma stuck_run (buildings : list BuildingData.t) (frames : list Player.frame) :
  Forall (fun f => Player.coasting (Player.controls f)) frames ->
  forall s : Player.refs,
    -18 <= Vector3.y (Player.position s) <= 80 ->
    Player.insideBuilding buildings (Player.position s) ->
    Player.speedRef s = 0 ->
    Player.position (Player.run buildings frames s) = Player.position s /\
    Player.speedRef (Player.run buildings frames s) = 0 /\
    Player.rotation_y (Player.run buildings frames s) = Player.rotation_y s /\
    Player.verdicts buildings frames s = repeat true (List.length frames).
Proof.
  induction 1 as [|f rest Hf _ IH]; intros s Hy Hin Hs.
  - simpl. auto.
  - destruct (stuck_frame (Player.controls f) buildings (Player.npcRefs f)
                (Player.delta f) s Hy Hin Hs Hf)
      as (Hhit & Hpos & Hspeed & Hyaw & _).
    specialize (IH (Player.useFrame (Player.controls f) buildings (Player.npcRefs f)
                      (Player.delta f) s)).
    rewrite Hpos, Hyaw in IH. destruct (IH Hy Hin Hspeed) as (H1 & H2 & H3 & H4).
    simpl. rewrite Hhit, H4. auto.
Qed.

(** C10: a reachable state whose position lies inside the inflated footprint
    of a building, below its top plus clearance, with speed zero: a frame
    with no forward, backward, up or down intent reports a collision, leaves
    position, speed and heading as they were, and arms the impact timer to
    0.5 (0.5 - delta once the frame has run it down); any number of such
    frames, whatever their turn and boost intents, NPC positions and elapsed
    times, all report a collision and leave the car where it is, at rest. *)
Theorem stuck_state_persists (buildings : list BuildingData.t)
        (controls : CarControls.t) (npcs : list Vector3.t) (delta : R)
        (frames : list Player.frame) (s : Player.refs) :
  Player.reachable buildings s ->
  Player.insideBuilding buildings (Player.position s) ->
  Player.speedRef s = 0 ->
  Player.coasting controls ->
  Forall (fun f => Player.coasting (Player.controls f)) frames ->
  (Player.frameCollided controls buildings npcs delta s = true /\
   Player.position (Player.useFrame controls buildings npcs delta s) = Player.position s /\
   Player.speedRef (Player.useFrame controls buildings npcs delta s) = Player.speedRef s /\
   Player.rotation_y (Player.useFrame controls buildings npcs delta s) = Player.rotation_y s /\
   Player.moveVector delta (Player.physics controls delta s) = Vector3.mk 0 0 0 /\
   Player.pushBack delta (Player.physics controls delta s) = Vector3.mk 0 0 0 /\
   Player.impactRef (Player.afterResponse controls buildings npcs delta s) = 0.5 /\
   Player.impactRef (Player.useFrame controls buildings npcs delta s) = 0.5 - delta) /\
  (Player.position (Player.run buildings frames s) = Player.position s /\
   Player.speedRef (Player.run buildings frames s) = Player.speedRef s /\
   Player.rotation_y (Player.run buildings frames s) = Player.rotation_y s /\
   Player.verdicts buildings frames s = repeat true (List.length frames)).
Proof.
  intros Hreach Hin Hs Hc Hall.
  pose proof (reachable_altitude _ _ Hreach) as Hy.
  destruct (stuck_frame controls buildings npcs delta s Hy Hin Hs Hc)
    as (Hhit & Hpos & Hspeed & Hyaw & Harm & Hdecay).
  destruct (stuck_run buildings frames Hall s Hy Hin Hs) as (H1 & H2 & H3 & H4).
  assert (Hrest : Player.speedRef (Player.physics controls delta s) = 0).
  { destruct Hc as (Hf & Hb & _).
    unfold Player.physics; cbn [Player.speedRef].
    rewrite updateSpeed_coasting, Hs by assumption. lra. }
  rewrite Hs. repeat split; trivial.
  - unfold Player.moveVector. rewrite Hrest.
    destruct (Player.direction _) as [dx dy dz].
    unfold Vector3.multiplyScalar; simpl. f_equal; ring.
  - unfold Player.pushBack, Player.moveVector. rewrite Hrest.
    destruct (Player.direction _) as [dx dy dz].
    unfold Vector3.multiplyScalar; simpl. f_equal; ring.
Qed.

Lemma origin_inside_tower :
  Player.insideBuilding [Scenario.towerHere] (Player.position Player.initial).
Proof.
  exists Scenario.towerHere. split; [left; reflexivity|].
  unfold Player.hitsBuilding, Player.CAR_HW, Player.CAR_HL; simpl. numbers.
Qed.

Lemma stuck_state_persists_witness :
  Player.reachable [Scenario.towerHere] Player.initial /\
  Player.insideBuilding [Scenario.towerHere] (Player.position Player.initial) /\
  Player.speedRef Player.initial = 0 /\
  Player.coasting Scenario.steerLeft /\
  Forall (fun f => Player.coasting (Player.controls f))
         [Player.mkFrame Scenario.idle [] 1; Player.mkFrame Scenario.steerLeft [] 0.5] /\
  Player.position (Player.useFrame Scenario.steerLeft [Scenario.towerHere] [] 1 Player.initial)
  = Player.position Player.initial.
Proof.
  assert (Hc : forall c, c = Scenario.idle \/ c = Scenario.steerLeft -> Player.coasting c).
  { intros c [->| ->]; repeat split; reflexivity. }
  assert (Hall : Forall (fun f => Player.coasting (Player.controls f))
                   [Player.mkFrame Scenario.idle [] 1;
                    Player.mkFrame Scenario.steerLeft [] 0.5]).
  { repeat constructor. }
  repeat split; try reflexivity; try exact Hall;
    try exact (Player.reachable_initial _); try exact origin_inside_tower.
  apply (stuck_state_persists [Scenario.towerHere] Scenario.steerLeft [] 1 _ Player.initial
           (Player.reachable_initial _) origin_inside_tower eq_refl
           (Hc _ (or_intror eq_refl)) Hall).
Defined.

(** ** C6: the loop of an NPC car *)

(** C6: after every frame the z coordinate of an NPC car lies in
    [-200, 200].  A move past 200 is reset to -200 by line 118, and line 119
    then leaves -200 alone; a move below -200 passes line 118 unchanged and
    is reset to 200 by line 119; a move that stays within the bounds is
    kept.  So a crossing is answered by one reset, in the same frame. *)
Theorem npc_stays_within_bounds (speed offset elapsedTime delta : R) (p : Vector3.t) :
  let moved := Vector3.z p + speed * delta in
  let z' := Vector3.z (NpcCar.useFrame speed offset elapsedTime delta p) in
  -200 <= z' <= 200 /\
  z' = NpcCar.loopLow (NpcCar.loopHigh moved) /\
  (200 < moved ->
   NpcCar.loopHigh moved = -200 /\ NpcCar.loopLow (-200) = -200 /\ z' = -200) /\
  (moved < -200 ->
   NpcCar.loopHigh moved = moved /\ NpcCar.loopLow moved = 200 /\ z' = 200) /\
  (-200 <= moved <= 200 ->
   NpcCar.loopHigh moved = moved /\ NpcCar.loopLow moved = moved /\ z' = moved).
Proof.
  intros moved z'. unfold z', NpcCar.useFrame; cbn [Vector3.z]. fold moved.
  unfold NpcCar.loopLow, NpcCar.loopHigh.
  repeat split; intros; numbers.
Qed.

Lemma npc_stays_within_bounds_witness :
  200 < Vector3.z Scenario.npcNearBound + 30 * 1 /\
  Vector3.z (NpcCar.useFrame 30 0 0 1 Scenario.npcNearBound) = -200.
Proof.
  assert (H : 200 < Vector3.z Scenario.npcNearBound + 30 * 1) by (simpl; lra).
  split; [exact H|].
  apply (npc_stays_within_bounds 30 0 0 1 Scenario.npcNearBound). exact H.
Defined.

(** ** C8: the radio log *)

Lemma slice_last_four {A : Type} (l : list A) :
  GameOverlay.slice (-4) l = skipn (List.length l - 4) l.
Proof.
  unfold GameOverlay.slice.
  change (-4 <? 0)%Z with true. cbv iota. f_equal. lia.
Qed.

Lemma addMessage_length (newId now sender text : string)
      (prev : list GameOverlay.RadioMessage) :
  List.length (GameOverlay.addMessage newId now sender text prev)
  = (Nat.min (List.length prev) 4 + 1)%nat.
Proof.
  unfold GameOverlay.addMessage.
  rewrite slice_last_four, length_app, length_skipn. simpl. lia.
Qed.

(** C8: [addMessage] keeps the last four entries of the previous log (all of
    them when there are fewer), in their order, and appends the new entry
    after them, so the new log has [min (length prev) 4 + 1] entries, at
    most 5; every log the component can hold has at most 5 entries. *)
Theorem radio_log_bounded :
  (forall (newId now sender text : string) (prev : list GameOverlay.RadioMessage),
      exists dropped kept : list GameOverlay.RadioMessage,
        prev = (dropped ++ kept)%list /\
        List.length kept = Nat.min (List.length prev) 4 /\
        GameOverlay.addMessage newId now sender text prev
        = (kept ++ [GameOverlay.mkRadioMessage newId sender text now])%list /\
        (List.length (GameOverlay.addMessage newId now sender text prev) <= 5)%nat) /\
  (forall log : list GameOverlay.RadioMessage,
      GameOverlay.reachableLog log -> (List.length log <= 5)%nat).
Proof.
  split.
  - intros newId now sender text prev.
    exists (firstn (List.length prev - 4) prev), (skipn (List.length prev - 4) prev).
    repeat split.
    + symmetry. apply firstn_skipn.
    + rewrite length_skipn. lia.
    + unfold GameOverlay.addMessage. rewrite slice_last_four. reflexivity.
    + rewrite addMessage_length. lia.
  - intros log H. destruct H as [|newId now sender text prev H].
    + simpl. lia.
    + rewrite addMessage_length. lia.
Qed.

Lemma radio_log_bounded_witness :
  GameOverlay.reachableLog
    (GameOverlay.addMessage "k3x9" "21:04:07" "SYSTEM" "DreamLink Connected." []) /\
  (List.length
     (GameOverlay.addMessage "k3x9" "21:04:07" "SYSTEM" "DreamLink Connected." []) <= 5)%nat.
Proof.
  assert (H : GameOverlay.reachableLog
                (GameOverlay.addMessage "k3x9" "21:04:07" "SYSTEM" "DreamLink Connected." [])).
  { constructor. constructor. }
  split; [exact H|].
  apply (proj2 radio_log_bounded _ H).
Defined.

(** ** C9: the radio chatter request *)

Example trim_strips_both_ends :
  GeminiService.trim (String (ascii_of_nat 10) "  Sector 7 acid rain warning.  ")
  = "Sector 7 acid rain warning."%string.
Proof. reflexivity. Qed.

(** A no-break space (U+00A0, bytes 194 160) and a line separator (U+2028,
    bytes 226 128 168) are trimmed as well. *)
Example trim_strips_unicode_spaces :
  GeminiService.trim
    (string_of_list_ascii
       (map ascii_of_nat [194; 160; 104; 105; 226; 128; 168; 32]%nat))
  = "hi"%string.
Proof. reflexivity. Qed.

Lemma dropLeading_nil (codes : list (list ascii)) :
  Forall (fun w => w <> []) codes -> GeminiService.dropLeading codes [] = None.
Proof.
  induction 1 as [|w others Hw _ IH]; [reflexivity|].
  simpl. destruct w; [contradiction|exact IH].
Qed.

Section Codes.
Variable codes : list (list ascii).

Lemma stripPrefix_some (w s rest : list ascii) :
  GeminiService.stripPrefix w s = Some rest <-> s = (w ++ rest)%list.
Proof.
  revert s. induction w as [|a w IH]; intros s; simpl.
  - split; intros H; [injection H as ->|subst]; reflexivity.
  - destruct s as [|b s]; [split; discriminate|].
    destruct (Ascii.eqb a b) eqn:E.
    + apply Ascii.eqb_eq in E. subst b. rewrite IH.
      split; intros H; [subst|injection H as ->]; reflexivity.
    + apply Ascii.eqb_neq in E. split; [discriminate|].
      intros H. injection H as -> _. contradiction.
Qed.

Lemma dropLeading_some (s rest : list ascii) :
  GeminiService.dropLeading codes s = Some rest ->
  exists w, In w codes /\ s = (w ++ rest)%list.
Proof.
  induction codes as [|w others IH]; simpl; [discriminate|].
  destruct (GeminiService.stripPrefix w s) as [r|] eqn:E.
  - intros H. injection H as ->. apply stripPrefix_some in E.
    exists w. split; [left; reflexivity|exact E].
  - intros H. destruct (IH H) as (w' & Hin & Hs). exists w'. split; [right|]; assumption.
Qed.

Lemma dropLeading_none (s : list ascii) :
  GeminiService.dropLeading codes s = None ->
  forall w rest, In w codes -> s <> (w ++ rest)%list.
Proof.
  induction codes as [|w0 others IH]; simpl; [intros _ w rest []|].
  destruct (GeminiService.stripPrefix w0 s) as [r|] eqn:E; [discriminate|].
  intros H w rest [<-|Hin] Hs.
  - apply (stripPrefix_some w0 s rest) in Hs. congruence.
  - exact (IH H w rest Hin Hs).
Qed.

Hypothesis nonempty : Forall (fun w => w <> []) codes.

(** What dropping all leading codes does: it takes a sequence of codes off
    the front and leaves bytes that start with none. *)
Lemma dropAllLeading_spec (fuel : nat) :
  forall s : list ascii,
    (List.length s <= fuel)%nat ->
    exists lead,
      s = (lead ++ GeminiService.dropAllLeading codes fuel s)%list /\
      Shape.madeOf codes lead /\
      GeminiService.dropLeading codes (GeminiService.dropAllLeading codes fuel s) = None.
Proof.
  induction fuel as [|fuel IH]; intros s Hlen.
  - destruct s; [|simpl in Hlen; lia]. exists []. simpl.
    repeat split; [constructor|apply dropLeading_nil, nonempty].
  - simpl. destruct (GeminiService.dropLeading codes s) as [rest|] eqn:E.
    + destruct (dropLeading_some _ _ E) as (w & Hin & ->).
      assert (Hw : w <> []).
      { rewrite Forall_forall in nonempty. apply nonempty, Hin. }
      assert (Hrest : (List.length rest <= fuel)%nat).
      { rewrite length_app in Hlen. destruct w; [contradiction|simpl in Hlen; lia]. }
      destruct (IH rest Hrest) as (lead & Hs & Hlead & Hnone).
      exists (w ++ lead)%list. repeat split.
      * rewrite <- app_assoc, <- Hs. reflexivity.
      * constructor; assumption.
      * exact Hnone.
    + exists []. repeat split; [constructor|exact E].
Qed.
End Codes.

Lemma madeOf_app (codes : list (list ascii)) (a b : list ascii) :
  Shape.madeOf codes a -> Shape.madeOf codes b -> Shape.madeOf codes (a ++ b)%list.
Proof.
  intros Ha Hb. induction Ha as [|w rest Hin _ IH]; [exact Hb|].
  rewrite <- app_assoc. constructor; assumption.
Qed.

Lemma madeOf_rev (codes : list (list ascii)) (l : list ascii) :
  Shape.madeOf (map (@rev ascii) codes) l -> Shape.madeOf codes (rev l).
Proof.
  induction 1 as [|w rest Hin _ IH]; [constructor|].
  rewrite rev_app_distr. apply madeOf_app; [exact IH|].
  apply in_map_iff in Hin. destruct Hin as (w0 & <- & Hin).
  rewrite rev_involutive, <- (app_nil_r w0). constructor; [exact Hin|constructor].
Qed.

Lemma whiteSpaceCodes_nonempty :
  Forall (fun w => w <> []) GeminiService.whiteSpaceCodes.
Proof. repeat constructor; discriminate. Qed.

Lemma reversed_codes_nonempty :
  Forall (fun w => w <> []) (map (@rev ascii) GeminiService.whiteSpaceCodes).
Proof. repeat constructor; discriminate. Qed.

(** What [trim] does to the bytes of a text: it takes white space off both
    ends and leaves bytes that neither start nor end with white space. *)
Lemma trim_spec (text : string) :
  exists lead trail : list ascii,
    list_ascii_of_string text
    = (lead ++ list_ascii_of_string (GeminiService.trim text) ++ trail)%list /\
    Shape.WhiteSpaces lead /\ Shape.WhiteSpaces trail /\
    (forall w rest, In w GeminiService.whiteSpaceCodes ->
                    list_ascii_of_string (GeminiService.trim text) <> (w ++ rest)%list) /\
    (forall w rest, In w GeminiService.whiteSpaceCodes ->
                    list_ascii_of_string (GeminiService.trim text) <> (rest ++ w)%list).
Proof.
  unfold GeminiService.trim. rewrite list_ascii_of_string_of_list_ascii.
  set (s := list_ascii_of_string text).
  destruct (dropAllLeading_spec _ whiteSpaceCodes_nonempty (List.length s) s (le_n _))
    as (lead & Hs & Hlead & Hnone).
  fold (GeminiService.trimStart s) in Hs, Hnone. set (t := GeminiService.trimStart s) in *.
  destruct (dropAllLeading_spec _ reversed_codes_nonempty (List.length t) (rev t))
    as (back & Ht & Hback & Hnone').
  { rewrite length_rev. apply le_n. }
  unfold GeminiService.trimEnd.
  set (u := GeminiService.dropAllLeading (map (@rev ascii) GeminiService.whiteSpaceCodes)
              (List.length t) (rev t)) in *.
  assert (Ht' : t = (rev u ++ rev back)%list).
  { rewrite <- rev_app_distr, <- Ht, rev_involutive. reflexivity. }
  exists lead, (rev back). repeat split.
  - rewrite <- Ht'. exact Hs.
  - exact Hlead.
  - apply madeOf_rev, Hback.
  - intros w rest Hin Hv.
    apply (dropLeading_none _ _ Hnone w (rest ++ rev back)%list Hin).
    rewrite Ht', Hv, <- app_assoc. reflexivity.
  - intros w rest Hin Hv.
    apply (dropLeading_none _ _ Hnone' (rev w) (rev rest)).
    + apply in_map, Hin.
    + rewrite <- rev_app_distr, <- Hv, rev_involutive. reflexivity.
Qed.

(** C9: whatever the external request does, the promise of
    [fetchRadioChatter] resolves with a string and is never rejected.  When
    the response carries a non-empty text the string is that text trimmed:
    the text is white space, then the string, then white space, and the
    string neither starts nor ends with white space.  It is the first
    fallback when the text is empty or undefined, the second fallback when
    the request throws. *)
Theorem fetchRadioChatter_never_rejects (o : GeminiService.outcome) :
  exists value : string,
    GeminiService.fetchRadioChatter o = GeminiService.Resolved value /\
    (forall text, o = GeminiService.Responds (Some text) -> text <> EmptyString ->
       value = GeminiService.trim text /\
       exists lead trail : list ascii,
         list_ascii_of_string text
         = (lead ++ list_ascii_of_string value ++ trail)%list /\
         Shape.WhiteSpaces lead /\ Shape.WhiteSpaces trail /\
         (forall w rest, In w GeminiService.whiteSpaceCodes ->
                         list_ascii_of_string value <> (w ++ rest)%list) /\
         (forall w rest, In w GeminiService.whiteSpaceCodes ->
                         list_ascii_of_string value <> (rest ++ w)%list)) /\
    (o = GeminiService.Responds (Some EmptyString) \/ o = GeminiService.Responds None ->
     value = GeminiService.fallbackEmpty) /\
    (forall error, o = GeminiService.Throws error -> value = GeminiService.fallbackError) /\
    ((forall text, o = GeminiService.Responds (Some text) -> text = EmptyString) ->
     In value GeminiService.fallbacks).
Proof.
  destruct o as [error|[[|c rest]|]]; unfold GeminiService.fetchRadioChatter;
    cbn [GeminiService.tryBlock GeminiService.truthy].
  - exists GeminiService.fallbackError. repeat split; intros; try discriminate; simpl; auto.
    destruct H; discriminate.
  - exists GeminiService.fallbackEmpty. repeat split; intros; try discriminate; simpl; auto;
      injection H as <-; contradiction.
  - exists (GeminiService.trim (String c rest)). split; [reflexivity|]. split; [|split; [|split]].
    + intros text H _. injection H as <-. split; [reflexivity|]. apply trim_spec.
    + intros [H|H]; discriminate.
    + intros error H. discriminate.
    + intros H. specialize (H _ eq_refl). discriminate.
  - exists GeminiService.fallbackEmpty. repeat split; intros; try discriminate; simpl; auto.
Qed.

(** * Further properties of the code *)

(** ** The keyboard handlers *)

(** Splits on every comparison of key codes in the goal. *)
Ltac key_cases :=
  repeat match goal with
         | |- context [String.eqb ?a ?b] =>
             let E := fresh "E" in
             destruct (String.eqb a b) eqn:E;
             [apply String.eqb_eq in E; subst | apply String.eqb_neq in E]
         end;
  simpl; try reflexivity; try congruence; try discriminate.

Lemma dispatch_flag (code : string) (e : UseControls.keyEvent) (c : CarControls.t) :
  In code UseControls.boundCodes ->
  UseControls.flagOf code (UseControls.dispatch c e)
  = match e with
    | UseControls.keydown k => if (k =? code)%string then true else UseControls.flagOf code c
    | UseControls.keyup k => if (k =? code)%string then false else UseControls.flagOf code c
    end.
Proof.
  intros Hin. simpl in Hin.
  destruct Hin as [<-|[<-|[<-|[<-|[<-|[<-|[<-|[]]]]]]]];
    destruct e as [k|k]; unfold UseControls.dispatch, UseControls.handleKeyDown,
      UseControls.handleKeyUp, UseControls.flagOf; key_cases.
Qed.

Lemma replay_from (code : string) (events : list UseControls.keyEvent) :
  In code UseControls.boundCodes ->
  forall c : CarControls.t,
    UseControls.flagOf code (fold_left UseControls.dispatch events c)
    = UseControls.heldAfter code events (UseControls.flagOf code c).
Proof.
  intros Hin. induction events as [|e rest IH]; intros c; [reflexivity|].
  simpl. rewrite IH, (dispatch_flag code e c Hin). destruct e; reflexivity.
Qed.

(** X1: after any sequence of key events each flag tells whether its key is
    held: it is true exactly when the last event of that key was a keydown
    (and false when the key had no event). *)
Theorem controls_follow_held_keys (code : string) (events : list UseControls.keyEvent) :
  In code UseControls.boundCodes ->
  UseControls.flagOf code (UseControls.replay events)
  = UseControls.heldAfter code events false.
Proof.
  intros Hin. unfold UseControls.replay. rewrite (replay_from code events Hin).
  f_equal. simpl in Hin.
  destruct Hin as [<-|[<-|[<-|[<-|[<-|[<-|[<-|[]]]]]]]]; reflexivity.
Qed.

Lemma controls_follow_held_keys_witness :
  In "ShiftLeft"%string UseControls.boundCodes /\
  UseControls.flagOf "ShiftLeft"
    (UseControls.replay [UseControls.keydown "ShiftLeft"; UseControls.keydown "KeyW";
                         UseControls.keyup "ShiftLeft"; UseControls.keydown "ShiftLeft"])
  = true.
Proof.
  assert (H : In "ShiftLeft"%string UseControls.boundCodes).
  { simpl. do 6 right. left. reflexivity. }
  split; [exact H|].
  apply (controls_follow_held_keys "ShiftLeft"
           [UseControls.keydown "ShiftLeft"; UseControls.keydown "KeyW";
            UseControls.keyup "ShiftLeft"; UseControls.keydown "ShiftLeft"] H).
Defined.

(** X2: a repeated keydown (key auto-repeat) changes nothing, a keyup undoes
    a keydown of a key that was up, and the events of two different keys
    can be taken in either order. *)
Theorem key_events_repeat_and_commute (k1 k2 : string) (c : CarControls.t) :
  k1 <> k2 ->
  UseControls.handleKeyDown k1 (UseControls.handleKeyDown k1 c)
  = UseControls.handleKeyDown k1 c /\
  (UseControls.flagOf k1 c = false ->
   UseControls.handleKeyUp k1 (UseControls.handleKeyDown k1 c) = c) /\
  UseControls.handleKeyDown k1 (UseControls.handleKeyDown k2 c)
  = UseControls.handleKeyDown k2 (UseControls.handleKeyDown k1 c) /\
  UseControls.handleKeyDown k1 (UseControls.handleKeyUp k2 c)
  = UseControls.handleKeyUp k2 (UseControls.handleKeyDown k1 c) /\
  UseControls.handleKeyUp k1 (UseControls.handleKeyUp k2 c)
  = UseControls.handleKeyUp k2 (UseControls.handleKeyUp k1 c).
Proof.
  intros Hne. destruct c as [f b l r u d bo].
  unfold UseControls.handleKeyDown, UseControls.handleKeyUp, UseControls.flagOf.
  repeat split; try intros Hflag; revert Hne; try revert Hflag; key_cases.
Qed.

Lemma key_events_repeat_and_commute_witness :
  "KeyW"%string <> "KeyA"%string /\
  UseControls.handleKeyDown "KeyW" (UseControls.handleKeyDown "KeyA" UseControls.initial)
  = UseControls.handleKeyDown "KeyA" (UseControls.handleKeyDown "KeyW" UseControls.initial).
Proof.
  assert (H : "KeyW"%string <> "KeyA"%string) by discriminate.
  split; [exact H|].
  apply (key_events_repeat_and_commute "KeyW" "KeyA" UseControls.initial H).
Defined.

(** ** The speed of the car *)

Lemma updateSpeed_range (controls : CarControls.t) (delta speed : R) :
  0 <= delta -> -25 <= speed <= 50 ->
  -25 <= Player.updateSpeed controls delta speed <= 50.
Proof.
  intros Hd Hs.
  unfold Player.updateSpeed, Player.reverseBound, Player.maxSpeed, Player.accel,
    Player.friction.
  destruct (CarControls.forward controls), (CarControls.backward controls),
    (CarControls.boost controls); simpl; numbers.
Qed.

Lemma updateSpeed_range_unboosted (controls : CarControls.t) (delta speed : R) :
  CarControls.boost controls = false ->
  0 <= delta -> -12.5 <= speed <= 25 ->
  -12.5 <= Player.updateSpeed controls delta speed <= 25.
Proof.
  intros Hb Hd Hs.
  unfold Player.updateSpeed, Player.reverseBound, Player.maxSpeed, Player.accel,
    Player.friction. rewrite Hb.
  destruct (CarControls.forward controls), (CarControls.backward controls);
    simpl; numbers.
Qed.

(** X3: over any run of frames with non-negative elapsed times, a speed
    within [-25, 50] stays within [-25, 50], whatever the controls and the
    collisions; so does the speed of a car started at rest. *)
Theorem speed_stays_within_caps (buildings : list BuildingData.t)
        (frames : list Player.frame) (s : Player.refs) :
  Forall (fun f => 0 <= Player.delta f) frames ->
  -25 <= Player.speedRef s <= 50 ->
  -25 <= Player.speedRef (Player.run buildings frames s) <= 50.
Proof.
  intros Hall. revert s. induction Hall as [|f rest Hf _ IH]; intros s Hs; [exact Hs|].
  simpl. apply IH. rewrite useFrame_speedRef.
  pose proof (updateSpeed_range (Player.controls f) _ _ Hf Hs) as Hu.
  destruct (Player.frameCollided _ _ _ _ _); lra.
Qed.

Lemma speed_stays_within_caps_witness :
  Forall (fun f => 0 <= Player.delta f)
         [Player.mkFrame (Scenario.brake true) [] 0.5; Player.mkFrame Scenario.idle [] 0.1] /\
  -25 <= Player.speedRef Player.initial <= 50 /\
  -25 <= Player.speedRef
           (Player.run [Scenario.towerAhead]
              [Player.mkFrame (Scenario.brake true) [] 0.5; Player.mkFrame Scenario.idle [] 0.1]
              Player.initial) <= 50.
Proof.
  assert (Hall : Forall (fun f => 0 <= Player.delta f)
                   [Player.mkFrame (Scenario.brake true) [] 0.5;
                    Player.mkFrame Scenario.idle [] 0.1]).
  { repeat constructor; simpl; lra. }
  assert (Hs : -25 <= Player.speedRef Player.initial <= 50) by (simpl; lra).
  split; [exact Hall|]. split; [exact Hs|].
  apply (speed_stays_within_caps [Scenario.towerAhead] _ Player.initial Hall Hs).
Defined.

(** X4: as long as boost is never held, over frames with non-negative
    elapsed times a speed within [-12.5, 25] stays within [-12.5, 25]. *)
Theorem speed_stays_within_unboosted_caps (buildings : list BuildingData.t)
        (frames : list Player.frame) (s : Player.refs) :
  Forall (fun f => 0 <= Player.delta f /\ CarControls.boost (Player.controls f) = false)
         frames ->
  -12.5 <= Player.speedRef s <= 25 ->
  -12.5 <= Player.speedRef (Player.run buildings frames s) <= 25.
Proof.
  intros Hall. revert s.
  induction Hall as [|f rest [Hf Hb] _ IH]; intros s Hs; [exact Hs|].
  simpl. apply IH. rewrite useFrame_speedRef.
  pose proof (updateSpeed_range_unboosted (Player.controls f) _ _ Hb Hf Hs) as Hu.
  destruct (Player.frameCollided _ _ _ _ _); lra.
Qed.

Lemma speed_stays_within_unboosted_caps_witness :
  Forall (fun f => 0 <= Player.delta f /\ CarControls.boost (Player.controls f) = false)
         [Player.mkFrame (Scenario.brake false) [] 1] /\
  -12.5 <= Player.speedRef Player.initial <= 25 /\
  -12.5 <= Player.speedRef
             (Player.run [] [Player.mkFrame (Scenario.brake false) [] 1] Player.initial)
        <= 25.
Proof.
  assert (Hall : Forall (fun f => 0 <= Player.delta f
                                  /\ CarControls.boost (Player.controls f) = false)
                   [Player.mkFrame (Scenario.brake false) [] 1]).
  { repeat constructor; simpl; lra. }
  assert (Hs : -12.5 <= Player.speedRef Player.initial <= 25) by (simpl; lra).
  split; [exact Hall|]. split; [exact Hs|].
  apply (speed_stays_within_unboosted_caps [] _ Player.initial Hall Hs).
Defined.

(** X5: with the forward key alone and a non-negative elapsed time, a speed
    at or below the cap of the frame does not decrease and does not pass the
    cap, gaining [20 * delta] while that stays below the cap; a speed above
    the cap (boost just released) drops to the cap in that one frame. *)
Theorem forward_accelerates_to_cap (controls : CarControls.t) (delta speed : R) :
  CarControls.forward controls = true ->
  CarControls.backward controls = false ->
  0 <= delta ->
  (speed <= Player.maxSpeed controls ->
   speed <= Player.updateSpeed controls delta speed <= Player.maxSpeed controls) /\
  (speed + 20 * delta <= Player.maxSpeed controls ->
   Player.updateSpeed controls delta speed = speed + 20 * delta) /\
  (Player.maxSpeed controls <= speed ->
   Player.updateSpeed controls delta speed = Player.maxSpeed controls).
Proof.
  intros Hf Hb Hd. unfold Player.updateSpeed, Player.accel. rewrite Hf, Hb. simpl.
  repeat split; intros; numbers.
Qed.

Lemma forward_accelerates_to_cap_witness :
  CarControls.forward (CarControls.mk true false false false false false false) = true /\
  Player.updateSpeed (CarControls.mk true false false false false false false) 0.1 50 = 25.
Proof.
  split; [reflexivity|].
  assert (Hd : 0 <= 0.1) by lra.
  destruct (forward_accelerates_to_cap
              (CarControls.mk true false false false false false false) 0.1 50
              eq_refl eq_refl Hd) as (_ & _ & H).
  apply H. unfold Player.maxSpeed; simpl. lra.
Defined.

(** ** Banking *)

Lemma bankTarget_range (controls : CarControls.t) :
  -0.35 <= Player.bankTarget controls <= 0.35.
Proof.
  unfold Player.bankTarget.
  destruct (CarControls.left controls), (CarControls.right controls); lra.
Qed.

(** X8: in every state the car can reach, the bank angle lies within
    [-0.35, 0.35]. *)
Theorem bank_angle_bounded (buildings : list BuildingData.t) (s : Player.refs) :
  Player.reachable buildings s -> -0.35 <= Player.rotation_z s <= 0.35.
Proof.
  induction 1 as [|controls npcs delta s _ IH].
  - simpl. lra.
  - rewrite useFrame_rotation_z. unfold MathUtils.lerp.
    pose proof (bankTarget_range controls). lra.
Qed.

Lemma bank_angle_bounded_witness :
  Player.reachable [] (Player.useFrame Scenario.steerLeft [] [] 0.1 Player.initial) /\
  -0.35 <= Player.rotation_z (Player.useFrame Scenario.steerLeft [] [] 0.1 Player.initial)
        <= 0.35.
Proof.
  assert (H : Player.reachable []
                (Player.useFrame Scenario.steerLeft [] [] 0.1 Player.initial)).
  { constructor. constructor. }
  split; [exact H|]. apply (bank_angle_bounded [] _ H).
Defined.

(** X9: while the turn intents keep the same target, every frame takes the
    bank angle a tenth of the way there: after n frames its distance to the
    target is 0.9^n times what it was. *)
Theorem bank_angle_converges (buildings : list BuildingData.t)
        (frames : list Player.frame) (target : R) (s : Player.refs) :
  Forall (fun f => Player.bankTarget (Player.controls f) = target) frames ->
  Player.rotation_z (Player.run buildings frames s) - target
  = 0.9 ^ List.length frames * (Player.rotation_z s - target).
Proof.
  intros Hall. revert s. induction Hall as [|f rest Hf _ IH]; intros s.
  - simpl. ring.
  - cbn [Player.run List.length pow]. rewrite IH, useFrame_rotation_z, Hf.
    unfold MathUtils.lerp. generalize (0.9 ^ List.length rest). intros q.
    replace ((1 - 0.1) * Player.rotation_z s + 0.1 * target - target)
      with (0.9 * (Player.rotation_z s - target)) by lra.
    generalize 0.9. intros r. ring.
Qed.

Lemma bank_angle_converges_witness :
  Forall (fun f => Player.bankTarget (Player.controls f) = 0.35)
         [Player.mkFrame Scenario.steerLeft [] 0.1; Player.mkFrame Scenario.steerLeft [] 0.2] /\
  Player.rotation_z
    (Player.run [] [Player.mkFrame Scenario.steerLeft [] 0.1;
                    Player.mkFrame Scenario.steerLeft [] 0.2] Player.initial) - 0.35
  = 0.9 ^ 2 * (Player.rotation_z Player.initial - 0.35).
Proof.
  assert (H : Forall (fun f => Player.bankTarget (Player.controls f) = 0.35)
                [Player.mkFrame Scenario.steerLeft [] 0.1;
                 Player.mkFrame Scenario.steerLeft [] 0.2]).
  { repeat constructor. }
  split; [exact H|]. apply (bank_angle_converges [] _ 0.35 Player.initial H).
Defined.

(** ** The movement of one frame *)

Lemma moveVector_length (delta : R) (s : Player.refs) :
  Vector3.distanceTo (Player.position s) (Vector3.add (Player.position s) (Player.moveVector delta s))
  = Rabs (Player.speedRef s * delta).
Proof.
  unfold Player.moveVector. rewrite direction_closed.
  unfold Vector3.distanceTo, Vector3.distanceToSquared, Vector3.add, Vector3.multiplyScalar;
    simpl.
  pose proof (sin2_cos2 (Player.rotation_y s)) as H. unfold Rsqr in H.
  set (k := Player.speedRef s * delta) in *.
  set (a := sin (Player.rotation_y s)) in *. set (b := cos (Player.rotation_y s)) in *.
  destruct (Player.position s) as [px py pz]; simpl.
  replace ((px - (px + - a * k)) * (px - (px + - a * k))
           + (py - (py + 0 * k)) * (py - (py + 0 * k))
           + (pz - (pz + - b * k)) * (pz - (pz + - b * k)))
    with ((a * a + b * b) * (k * k)) by ring.
  rewrite H, Rmult_1_l. apply sqrt_Rsqr_abs.
Qed.

Lemma pushBack_length (delta : R) (s : Player.refs) :
  Vector3.distanceTo (Player.position s) (Vector3.add (Player.position s) (Player.pushBack delta s))
  = 2 * Rabs (Player.speedRef s * delta).
Proof.
  unfold Player.pushBack, Player.moveVector. rewrite direction_closed.
  unfold Vector3.distanceTo, Vector3.distanceToSquared, Vector3.add, Vector3.multiplyScalar;
    simpl.
  pose proof (sin2_cos2 (Player.rotation_y s)) as H. unfold Rsqr in H.
  set (k := Player.speedRef s * delta) in *.
  set (a := sin (Player.rotation_y s)) in *. set (b := cos (Player.rotation_y s)) in *.
  destruct (Player.position s) as [px py pz]; simpl.
  replace ((px - (px + - a * k * -2)) * (px - (px + - a * k * -2))
           + (py - (py + 0 * k * -2)) * (py - (py + 0 * k * -2))
           + (pz - (pz + - b * k * -2)) * (pz - (pz + - b * k * -2)))
    with ((a * a + b * b) * ((2 * k) * (2 * k))) by ring.
  rewrite H, Rmult_1_l.
  change ((2 * k) * (2 * k)) with (Rsqr (2 * k)).
  rewrite sqrt_Rsqr_abs, Rabs_mult, (Rabs_pos_eq 2) by lra. reflexivity.
Qed.

(** X10: a frame without a collision moves the car by exactly the speed of
    the frame times the elapsed time, whatever the heading; the push back
    of a frame with a collision moves it by twice that distance. *)
Theorem frame_displacement (controls : CarControls.t)
        (buildings : list BuildingData.t) (npcs : list Vector3.t)
        (delta : R) (s : Player.refs) :
  Vector3.distanceTo (Player.position (Player.physics controls delta s))
                     (Player.position (Player.useFrame controls buildings npcs delta s))
  = (if Player.frameCollided controls buildings npcs delta s then 2 else 1)
    * Rabs (Player.updateSpeed controls delta (Player.speedRef s) * delta).
Proof.
  rewrite useFrame_position.
  change (Player.updateSpeed controls delta (Player.speedRef s))
    with (Player.speedRef (Player.physics controls delta s)).
  destruct (Player.frameCollided _ _ _ _ _).
  - apply pushBack_length.
  - unfold Player.nextPos. rewrite moveVector_length. lra.
Qed.

(** ** The collision test *)

Lemma collidesBuildings_true (p : Vector3.t) (buildings : list BuildingData.t) :
  Player.collidesBuildings p buildings = true <-> Player.insideBuilding buildings p.
Proof.
  split; [|apply collidesBuildings_inside].
  induction buildings as [|b rest IH]; simpl; [discriminate|].
  destruct (Player.hitsBuilding p b) eqn:E.
  - intros _. exists b. split; [left; reflexivity|exact E].
  - intros H. destruct (IH H) as (b' & Hin & Hhit). exists b'. split; [right|]; assumption.
Qed.

Lemma collidesNpcs_true (p : Vector3.t) (npcs : list Vector3.t) :
  Player.collidesNpcs p npcs = true <->
  exists npcPos, In npcPos npcs /\ Player.hitsNpc p npcPos = true.
Proof.
  induction npcs as [|n rest IH]; simpl.
  - split; [discriminate|]. intros (? & [] & _).
  - destruct (Player.hitsNpc p n) eqn:E.
    + split; [|reflexivity]. intros _. exists n. split; [left; reflexivity|exact E].
    + rewrite IH. split; intros (n' & Hin & Hhit).
      * exists n'. split; [right|]; assumption.
      * destruct Hin as [->|Hin]; [congruence|]. exists n'. split; assumption.
Qed.

(** X11: the collision test reports a hit exactly when the proposed
    position is inside the inflated volume of some building or within reach
    of some NPC car; leaving the loops at the first hit makes the verdict
    independent of the order of the buildings and of the NPC cars. *)
Theorem collision_verdict (buildings : list BuildingData.t) (npcs : list Vector3.t)
        (p : Vector3.t) :
  Player.collided buildings npcs p = true <->
  (exists b, In b buildings /\ Player.hitsBuilding p b = true) \/
  (exists npcPos, In npcPos npcs /\ Player.hitsNpc p npcPos = true).
Proof.
  unfold Player.collided.
  destruct (Player.collidesBuildings p buildings) eqn:E.
  - apply collidesBuildings_true in E. split; [intros _; left; exact E|reflexivity].
  - rewrite collidesNpcs_true. split; [intros H; right; exact H|].
    intros [H|H]; [|exact H].
    apply collidesBuildings_true in H. congruence.
Qed.

Lemma altitude_range_after (controls : CarControls.t)
      (buildings : list BuildingData.t) (npcs : list Vector3.t)
      (delta : R) (s : Player.refs) :
  -18 <= Vector3.y (Player.position (Player.useFrame controls buildings npcs delta s)) <= 80.
Proof. rewrite useFrame_altitude. apply updateAltitude_range. Qed.

(** ** The impact timer *)

(** X12: over frames with non-negative elapsed times an impact timer at or
    below 0.5 never exceeds 0.5, the value a collision arms it to. *)
Theorem impact_timer_bounded (buildings : list BuildingData.t)
        (frames : list Player.frame) (s : Player.refs) :
  Forall (fun f => 0 <= Player.delta f) frames ->
  Player.impactRef s <= 0.5 ->
  Player.impactRef (Player.run buildings frames s) <= 0.5.
Proof.
  intros Hall. revert s. induction Hall as [|f rest Hf _ IH]; intros s Hs; [exact Hs|].
  simpl. apply IH.
  unfold Player.useFrame, Player.shake, Player.bank, Player.afterResponse, Player.respond;
    cbn [Player.impactRef].
  destruct (Player.collided _ _ _); cbn [Player.impactRef Player.physics]; numbers.
Qed.

Lemma impact_timer_bounded_witness :
  Forall (fun f => 0 <= Player.delta f) [Player.mkFrame Scenario.climb [] 0.1] /\
  Player.impactRef Scenario.cruising <= 0.5 /\
  Player.impactRef
    (Player.run [Scenario.towerAhead] [Player.mkFrame Scenario.climb [] 0.1] Scenario.cruising)
  <= 0.5.
Proof.
  assert (Hall : Forall (fun f => 0 <= Player.delta f) [Player.mkFrame Scenario.climb [] 0.1]).
  { repeat constructor; simpl; lra. }
  assert (Hs : Player.impactRef Scenario.cruising <= 0.5) by (simpl; lra).
  split; [exact Hall|]. split; [exact Hs|].
  apply (impact_timer_bounded [Scenario.towerAhead] _ Scenario.cruising Hall Hs).
Defined.

(** ** Drawn buildings and the collision test *)

(** X13: every point of the box [City] draws for a building is a hit of the
    building test of [Player]: the collision volume contains the drawn
    building. *)
Theorem drawn_building_is_solid (b : BuildingData.t) (p : Vector3.t) :
  City.insideBox b p -> Player.hitsBuilding p b = true.
Proof.
  unfold City.insideBox, City.meshPosition, Player.hitsBuilding, Player.CAR_HW,
    Player.CAR_HL; cbn [Vector3.x Vector3.y Vector3.z].
  intros (Hx & Hy & Hz).
  repeat (apply andb_true_intro; split);
    try apply Rgtb_true; try apply Rltb_true; revert Hx Hy Hz; numbers.
Qed.

Lemma drawn_building_is_solid_witness :
  City.insideBox Scenario.towerAhead (Vector3.mk 3 40 (-23)) /\
  Player.hitsBuilding (Vector3.mk 3 40 (-23)) Scenario.towerAhead = true.
Proof.
  assert (H : City.insideBox Scenario.towerAhead (Vector3.mk 3 40 (-23))).
  { unfold City.insideBox, City.meshPosition; simpl. repeat split; numbers. }
  split; [exact H|]. apply (drawn_building_is_solid _ _ H).
Defined.

(** ** The telemetry *)

Lemma round_between (a b : Z) (x : R) :
  IZR a <= x <= IZR b -> IZR a <= Telemetry.round x <= IZR b.
Proof.
  intros [Ha Hb]. unfold Telemetry.round.
  pose proof (Zfloor_bound (x + 0.5)) as [Hlo Hhi].
  split; apply IZR_le.
  - apply Zfloor_lub. lra.
  - assert (H : (Zfloor (x + 0.5) < b + 1)%Z); [|lia].
    apply lt_IZR. rewrite plus_IZR. lra.
Qed.

Lemma round_near (x : R) : Rabs (Telemetry.round x - x) <= 0.5.
Proof.
  unfold Telemetry.round. pose proof (Zfloor_bound (x + 0.5)) as [Hlo Hhi]. numbers.
Qed.

(** X14: after every frame the altitude handed to [onUpdate] is a whole
    number between 2 and 100, within 0.5 of the altitude above the ground;
    the speed reading is a whole number, never negative, at most 500 while
    the speed is within [-25, 50]; the speed bar of the overlay is between
    0 and 100 percent wide. *)
Theorem telemetry_readings (controls : CarControls.t)
        (buildings : list BuildingData.t) (npcs : list Vector3.t)
        (delta : R) (s : Player.refs) :
  let s' := Player.useFrame controls buildings npcs delta s in
  let t := Telemetry.onUpdate s' in
  2 <= PlayerState.altitude t <= 100 /\
  (exists n : Z, PlayerState.altitude t = IZR n) /\
  Rabs (PlayerState.altitude t - (Vector3.y (Player.position s') + 20)) <= 0.5 /\
  0 <= PlayerState.speed t /\
  (exists n : Z, PlayerState.speed t = IZR n) /\
  (-25 <= Player.speedRef s' <= 50 -> PlayerState.speed t <= 500) /\
  0 <= Minimap.speedBar t <= 100.
Proof.
  intros s' t. unfold t, Telemetry.onUpdate; cbn [PlayerState.altitude PlayerState.speed].
  pose proof (altitude_range_after controls buildings npcs delta s) as Hy. fold s' in Hy.
  assert (Hpos : 0 <= Rabs (Telemetry.round (Player.speedRef s' * 10))) by apply Rabs_pos.
  repeat split.
  - apply (round_between 2 100). lra.
  - apply (round_between 2 100). lra.
  - eexists. reflexivity.
  - apply round_near.
  - exact Hpos.
  - exists (Z.abs (Zfloor (Player.speedRef s' * 10 + 0.5))).
    unfold Telemetry.round. symmetry. apply abs_IZR.
  - intros Hs.
    pose proof (round_between (-250) 500 (Player.speedRef s' * 10)) as H.
    revert H. numbers.
  - unfold Minimap.speedBar; cbn [PlayerState.speed]. revert Hpos. numbers.
  - unfold Minimap.speedBar; cbn [PlayerState.speed]. revert Hpos. numbers.
Qed.

(** ** The generated city *)

Lemma pick_in_palette (u : R) :
  0 <= u < 1 -> In (Generator.pick Generator.TENDER_PALETTE u) Generator.TENDER_PALETTE.
Proof.
  intros Hu. unfold Generator.pick.
  change (INR (List.length Generator.TENDER_PALETTE)) with (INR 5).
  replace (INR 5) with 5 by (simpl; lra).
  pose proof (Zfloor_bound (u * 5)) as [Hlo Hhi].
  assert (H0 : (0 <= Zfloor (u * 5))%Z) by (apply Zfloor_lub; simpl; lra).
  assert (H5 : (Zfloor (u * 5) < 5)%Z) by (apply lt_IZR; lra).
  destruct (Z.ltb_spec (Zfloor (u * 5)) 0); [lia|].
  apply nth_In. simpl. lia.
Qed.

Lemma buildingsFrom_wellPlaced (rand : nat -> R) :
  Generator.unitDraws rand ->
  forall (count k : nat) (items : list BuildingData.t),
    Forall Shape.wellPlaced items ->
    Forall Shape.wellPlaced (Generator.buildingsFrom rand count k items) /\
    (List.length (Generator.buildingsFrom rand count k items)
     <= List.length items + count)%nat.
Proof.
  intros Hrand. induction count as [|count IH]; intros k items Hitems.
  - simpl. split; [exact Hitems|lia].
  - cbn [Generator.buildingsFrom].
    set (x := Generator.randomRange (- Generator.CITY_SIZE * 3) (Generator.CITY_SIZE * 3) (rand k)).
    set (z := Generator.randomRange (- Generator.CITY_SIZE * 3) (Generator.CITY_SIZE * 3)
                (rand (k + 1)%nat)).
    destruct (Rltb (Rabs x) 15 && Rltb (Rabs z) 15) eqn:Eclear.
    + destruct (IH (k + 2)%nat items Hitems) as [H1 H2]. split; [exact H1|lia].
    + match goal with
      | |- context [Generator.buildingsFrom rand count ?k' ?items'] =>
          destruct (IH k' items') as [H1 H2]
      end.
      * apply Forall_app. split; [exact Hitems|]. constructor; [|constructor].
        unfold Shape.wellPlaced; cbn [BuildingData.x BuildingData.z BuildingData.height
          BuildingData.width BuildingData.depth BuildingData.color].
        assert (Hx : -180 <= x < 180).
        { unfold x, Generator.CITY_SIZE, Generator.randomRange.
          pose proof (Hrand k). lra. }
        assert (Hz : -180 <= z < 180).
        { unfold z, Generator.CITY_SIZE, Generator.randomRange.
          pose proof (Hrand (k + 1)%nat). lra. }
        assert (Hout : 15 <= Rabs x \/ 15 <= Rabs z).
        { apply andb_false_iff in Eclear. destruct Eclear as [E|E];
            apply Rltb_false in E; [left|right]; exact E. }
        pose proof (Hrand (k + 2)%nat). pose proof (Hrand (k + 3)%nat).
        pose proof (Hrand (k + 4)%nat).
        unfold Generator.randomRange.
        repeat split; try lra; try nra; try exact Hout.
        apply pick_in_palette, Hrand.
      * split; [exact H1|]. rewrite length_app in H2. simpl in H2. lia.
Qed.

Lemma buildings_wellPlaced (rand : nat -> R) :
  Generator.unitDraws rand -> Forall Shape.wellPlaced (Generator.buildings rand).
Proof.
  intros Hrand.
  apply (buildingsFrom_wellPlaced rand Hrand Generator.BUILDING_COUNT 0 [] (Forall_nil _)).
Qed.

(** X15: whatever [Math.random] draws, the city has at most 300 buildings,
    each inside the placement square [-180, 180), outside the clear centre
    (|x| < 15 and |z| < 15), 15 to 70 high, 3 to 8 wide and deep, in a
    colour of the palette. *)
Theorem generated_city_well_placed (rand : nat -> R) :
  Generator.unitDraws rand ->
  Forall Shape.wellPlaced (Generator.buildings rand) /\
  (List.length (Generator.buildings rand) <= 300)%nat.
Proof.
  intros Hrand.
  destruct (buildingsFrom_wellPlaced rand Hrand Generator.BUILDING_COUNT 0 []
              (Forall_nil _)) as [H1 H2].
  split; [exact H1|exact H2].
Qed.

Lemma half_draws : Generator.unitDraws Scenario.draws.
Proof. intros n. unfold Scenario.draws. destruct (Nat.even n); lra. Qed.

Lemma generated_city_well_placed_witness :
  Generator.unitDraws Scenario.draws /\
  (List.length (Generator.buildings Scenario.draws) <= 300)%nat.
Proof.
  split; [exact half_draws|].
  apply (generated_city_well_placed _ half_draws).
Defined.

Lemma wellPlaced_clear_of (p : Vector3.t) (buildings : list BuildingData.t) :
  Forall Shape.wellPlaced buildings ->
  (Rabs (Vector3.x p) <= 10 /\ Rabs (Vector3.z p) <= 9) \/ 51 <= Vector3.y p ->
  Player.collidesBuildings p buildings = false.
Proof.
  intros Hall Hp. induction Hall as [|b rest Hb _ IH]; [reflexivity|].
  simpl. rewrite IH.
  destruct (Player.hitsBuilding p b) eqn:E; [|reflexivity]. exfalso.
  unfold Player.hitsBuilding, Player.CAR_HW, Player.CAR_HL in E.
  repeat (apply andb_prop in E; destruct E as [E ?]).
  repeat match goal with
         | H : Rgtb _ _ = true |- _ => apply Rgtb_true in H
         | H : Rltb _ _ = true |- _ => apply Rltb_true in H
         end.
  destruct Hb as (Hx & Hz & Hout & Hh & Hw & Hd & _).
  destruct Hp as [[Hpx Hpz]|Hpy]; [|lra].
  revert Hout Hpx Hpz. numbers; intros [?|?]; lra.
Qed.

(** X16: the spawn corridor is free.  Whatever [Math.random] draws, no
    building of the generated city is hit at a proposed position with
    |x| <= 10 and |z| <= 9, at any altitude; the origin is such a position. *)
Theorem spawn_corridor_is_free (rand : nat -> R) (p : Vector3.t) :
  Generator.unitDraws rand ->
  Rabs (Vector3.x p) <= 10 -> Rabs (Vector3.z p) <= 9 ->
  Player.collidesBuildings p (Generator.buildings rand) = false.
Proof.
  intros Hrand Hx Hz.
  apply wellPlaced_clear_of; [apply buildings_wellPlaced, Hrand|].
  left. split; assumption.
Qed.

Lemma spawn_corridor_is_free_witness :
  Generator.unitDraws Scenario.draws /\
  Player.collidesBuildings (Player.position Player.initial)
    (Generator.buildings Scenario.draws) = false.
Proof.
  split; [exact half_draws|].
  apply (spawn_corridor_is_free _ (Player.position Player.initial) half_draws);
    simpl; rewrite Rabs_R0; lra.
Defined.

(** X17: the generated city can always be flown over.  A proposed position
    at altitude 51 or more hits no building, and the ceiling 80 of the car
    is above that. *)
Theorem rooftops_are_below_51 (rand : nat -> R) (p : Vector3.t) :
  Generator.unitDraws rand ->
  51 <= Vector3.y p ->
  Player.collidesBuildings p (Generator.buildings rand) = false.
Proof.
  intros Hrand Hy.
  apply wellPlaced_clear_of; [apply buildings_wellPlaced, Hrand|].
  right. exact Hy.
Qed.

Lemma rooftops_are_below_51_witness :
  Generator.unitDraws Scenario.draws /\
  Player.collidesBuildings (Vector3.mk 144 60 (-90))
    (Generator.buildings Scenario.draws) = false.
Proof.
  split; [exact half_draws|].
  apply (rooftops_are_below_51 _ (Vector3.mk 144 60 (-90)) half_draws). simpl. lra.
Defined.

(** X18: every building of the generated city is drawn on the minimap as a
    square of 2 by 2 (its scaled footprint is below the minimum size), and
    the square lies within the 160 by 160 map. *)
Theorem generated_city_fits_minimap (rand : nat -> R) :
  Generator.unitDraws rand ->
  Forall (fun r => Shape.onMap r /\ Minimap.width r = 2 /\ Minimap.height r = 2)
         (Minimap.minimapBuildings (Generator.buildings rand)).
Proof.
  intros Hrand. unfold Minimap.minimapBuildings. apply Forall_map.
  pose proof (buildings_wellPlaced rand Hrand) as Hall.
  eapply Forall_impl; [|exact Hall].
  intros b (Hx & Hz & _ & _ & Hw & Hd & _).
  unfold Shape.onMap, Minimap.minimapBuilding, Minimap.scale, Minimap.MAP_SIZE,
    Minimap.WORLD_SIZE; cbn [Minimap.left Minimap.top Minimap.width Minimap.height].
  assert (Ew : Rmax 2 (BuildingData.width b * (160 / (400 * 2))) = 2) by numbers.
  assert (Ed : Rmax 2 (BuildingData.depth b * (160 / (400 * 2))) = 2) by numbers.
  rewrite Ew, Ed. repeat split; lra.
Qed.

Lemma generated_city_fits_minimap_witness :
  Generator.unitDraws Scenario.draws /\
  Forall (fun r => Shape.onMap r /\ Minimap.width r = 2 /\ Minimap.height r = 2)
         (Minimap.minimapBuildings
            (Generator.buildings Scenario.draws)).
Proof.
  split; [exact half_draws|].
  apply (generated_city_fits_minimap _ half_draws).
Defined.

(** ** The NPC cars *)

(** X19: whatever [Math.random] draws, an NPC car starts within 150 of the
    origin in x and z (so inside the loop bounds of 200), between -10 and
    30 high, and its speed is never zero: between 15 and 35 in magnitude. *)
Theorem generated_npc_in_range (u1 u2 u3 u4 u5 u6 : R) :
  0 <= u1 < 1 -> 0 <= u2 < 1 -> 0 <= u3 < 1 -> 0 <= u4 < 1 ->
  let car := Generator.makeNpc u1 u2 u3 u4 u5 u6 in
  Rabs (Vector3.x (Generator.initialPos car)) <= 150 /\
  -10 <= Vector3.y (Generator.initialPos car) < 30 /\
  Rabs (Vector3.z (Generator.initialPos car)) <= 150 /\
  15 <= Rabs (Generator.speed car) < 35.
Proof.
  intros H1 H2 H3 H4. unfold Generator.makeNpc; cbn [Generator.initialPos Generator.speed
    Vector3.x Vector3.y Vector3.z].
  repeat split; try lra; numbers.
Qed.

Lemma generated_npc_in_range_witness :
  0 <= 0.25 < 1 /\
  15 <= Rabs (Generator.speed (Generator.makeNpc 0.25 0.25 0.25 0.25 0.25 0.25)) < 35.
Proof.
  assert (H : 0 <= 0.25 < 1) by lra.
  split; [exact H|].
  apply (generated_npc_in_range 0.25 0.25 0.25 0.25 0.25 0.25 H H H H).
Defined.

(** X20: an NPC car keeps its lane: a frame leaves its x coordinate as it
    is and moves its height by at most 0.02. *)
Theorem npc_keeps_lane (speed offset elapsedTime delta : R) (p : Vector3.t) :
  Vector3.x (NpcCar.useFrame speed offset elapsedTime delta p) = Vector3.x p /\
  Rabs (Vector3.y (NpcCar.useFrame speed offset elapsedTime delta p) - Vector3.y p) <= 0.02.
Proof.
  unfold NpcCar.useFrame; cbn [Vector3.x Vector3.y]. split; [reflexivity|].
  pose proof (SIN_bound (elapsedTime + offset)) as [Hlo Hhi]. numbers.
Qed.

(** ** The rain *)

Lemma rain_nth (fround : R -> R) (delta : R) :
  forall (n : nat) (positions : list R) (i : nat),
    (List.length positions <= n)%nat ->
    nth i (Rain.useFrame fround delta positions) 0
    = if ((i mod 3 =? 1) && (i <? List.length positions))%nat
      then Rain.fall fround delta (nth i positions 0)
      else nth i positions 0.
Proof.
  induction n as [|n IH]; intros positions i Hlen.
  - destruct positions; [|simpl in Hlen; lia]. simpl.
    rewrite andb_false_r. reflexivity.
  - destruct positions as [|x [|y [|z rest]]].
    + simpl. rewrite andb_false_r. reflexivity.
    + simpl. destruct i as [|[|i]]; simpl; try reflexivity.
      rewrite andb_false_r. reflexivity.
    + simpl. destruct i as [|[|[|i]]]; simpl; try reflexivity.
      rewrite andb_false_r. reflexivity.
    + cbn [Rain.useFrame]. destruct i as [|[|[|i]]]; try reflexivity.
      cbn [nth]. rewrite (IH rest i) by (simpl in Hlen; lia).
      replace (S (S (S i)) mod 3)%nat with (i mod 3)%nat.
      * reflexivity.
      * replace (S (S (S i))) with (i + 1 * 3)%nat by lia.
        symmetry. apply Nat.Div0.mod_add.
Qed.

Lemma rain_length (fround : R -> R) (delta : R) (positions : list R) :
  List.length (Rain.useFrame fround delta positions) = List.length positions.
Proof.
  assert (H : forall n (l : list R), (List.length l <= n)%nat ->
                List.length (Rain.useFrame fround delta l) = List.length l).
  { induction n as [|n IH]; intros l Hl.
    - destruct l; [reflexivity|simpl in Hl; lia].
    - destruct l as [|x [|y [|z rest]]]; try reflexivity.
      cbn [Rain.useFrame List.length]. rewrite IH by (simpl in Hl; lia). reflexivity. }
  apply (H (List.length positions)). lia.
Qed.

(** X21: a frame of the rain touches the heights only: the array keeps its
    length, and every entry whose index is not one of 1, 4, 7, ..., the x
    and z of each drop, is left as it is, whatever the rounding of the
    stores and the length of the array. *)
Theorem rain_moves_heights_only (fround : R -> R) (delta : R) (positions : list R)
        (i : nat) :
  (i mod 3 <> 1)%nat ->
  List.length (Rain.useFrame fround delta positions) = List.length positions /\
  nth i (Rain.useFrame fround delta positions) 0 = nth i positions 0.
Proof.
  intros Hmod. split; [apply rain_length|].
  rewrite (rain_nth fround delta (List.length positions)) by lia.
  replace (i mod 3 =? 1)%nat with false; [reflexivity|].
  symmetry. apply Nat.eqb_neq. exact Hmod.
Qed.

Lemma rain_moves_heights_only_witness :
  (3 mod 3 <> 1)%nat /\
  nth 3 (Rain.useFrame (fun y => y) 0.1 Scenario.drops) 0 = nth 3 Scenario.drops 0.
Proof.
  assert (H : (3 mod 3 <> 1)%nat) by (simpl; lia).
  split; [exact H|].
  apply (rain_moves_heights_only (fun y => y) 0.1 Scenario.drops 3 H).
Defined.

(** X22: after a frame every height of the rain is at least -20, whatever
    the rounding of the stores: it is the stored value of the height less
    [40 * delta] when that value is not below -20, and 100 when it is. *)
Theorem rain_heights_bounded (fround : R -> R) (delta : R) (positions : list R)
        (i : nat) :
  (i mod 3 = 1)%nat -> (i < List.length positions)%nat ->
  let stored := fround (nth i positions 0 - 40 * delta) in
  -20 <= nth i (Rain.useFrame fround delta positions) 0 /\
  (stored < -20 -> nth i (Rain.useFrame fround delta positions) 0 = 100) /\
  (-20 <= stored -> nth i (Rain.useFrame fround delta positions) 0 = stored).
Proof.
  intros Hmod Hlt stored.
  rewrite (rain_nth fround delta (List.length positions)) by lia.
  rewrite Hmod. replace (i <? List.length positions)%nat with true
    by (symmetry; apply Nat.ltb_lt; exact Hlt).
  cbn [Nat.eqb andb]. unfold Rain.fall. fold stored.
  generalize stored. intros v. repeat split; intros; numbers.
Qed.

Lemma rain_heights_bounded_witness :
  (1 mod 3 = 1)%nat /\ (1 < List.length Scenario.drops)%nat /\
  nth 1 (Rain.useFrame (fun y => y) 0.1 Scenario.drops) 0 = 100.
Proof.
  assert (H1 : (1 mod 3 = 1)%nat) by reflexivity.
  assert (H2 : (1 < List.length Scenario.drops)%nat) by (simpl; lia).
  split; [exact H1|]. split; [exact H2|].
  apply (rain_heights_bounded (fun y => y) 0.1 Scenario.drops 1 H1 H2). simpl. lra.
Defined.

(** ** The radio log over many messages *)

Lemma addMessage_lastN (newId now sender text : string)
      (prev : list GameOverlay.RadioMessage) :
  GameOverlay.addMessage newId now sender text prev
  = Shape.lastN 5 (prev ++ [GameOverlay.mkRadioMessage newId sender text now])%list.
Proof.
  unfold GameOverlay.addMessage, Shape.lastN.
  rewrite slice_last_four, length_app, skipn_app. simpl List.length.
  replace (List.length prev + 1 - 5)%nat with (List.length prev - 4)%nat by lia.
  replace (List.length prev - 4 - List.length prev)%nat with 0%nat by lia.
  reflexivity.
Qed.

Lemma lastN_absorbs {A : Type} (n : nat) (l r : list A) :
  Shape.lastN n (Shape.lastN n l ++ r)%list = Shape.lastN n (l ++ r)%list.
Proof.
  unfold Shape.lastN.
  rewrite !length_app, length_skipn, !skipn_app, skipn_skipn, length_skipn.
  f_equal; f_equal; lia.
Qed.

(** X23: after any number of calls of [addMessage] a log that held at most
    five entries holds the last five of all the entries it was given, in
    their order; the older ones are gone. *)
Theorem log_holds_last_five (messages log : list GameOverlay.RadioMessage) :
  (List.length log <= 5)%nat ->
  Radio.addAll messages log = Shape.lastN 5 (log ++ messages)%list.
Proof.
  revert log. induction messages as [|m rest IH]; intros log Hlen.
  - simpl. rewrite app_nil_r. unfold Shape.lastN.
    replace (List.length log - 5)%nat with 0%nat by lia. reflexivity.
  - unfold Radio.addAll in *. cbn [fold_left]. rewrite IH.
    + rewrite addMessage_lastN. destruct m as [i s t ts]; cbn [GameOverlay.id
        GameOverlay.sender GameOverlay.text GameOverlay.timestamp].
      rewrite lastN_absorbs, <- app_assoc. reflexivity.
    + rewrite addMessage_length. lia.
Qed.

Lemma log_holds_last_five_witness :
  (List.length (@nil GameOverlay.RadioMessage) <= 5)%nat /\
  Radio.addAll [GameOverlay.mkRadioMessage "a1" "SYSTEM" "DreamLink Connected." "21:04:07"] []
  = Shape.lastN 5
      ([] ++ [GameOverlay.mkRadioMessage "a1" "SYSTEM" "DreamLink Connected." "21:04:07"])%list.
Proof.
  assert (H : (List.length (@nil GameOverlay.RadioMessage) <= 5)%nat) by (simpl; lia).
  split; [exact H|].
  apply (log_holds_last_five _ [] H).
Defined.

(** X24: one firing of the chatter timer never fails and adds at most one
    entry: with a draw of at most 0.4 it leaves the log alone, otherwise it
    appends one message of sender VAPOR_NET whose text is what
    [fetchRadioChatter] resolved with; a log the component can hold remains
    one. *)
Theorem chatter_adds_at_most_one (u : R) (o : GeminiService.outcome)
        (newId now : string) (log : list GameOverlay.RadioMessage) :
  (u <= 0.4 -> Radio.chatter u o newId now log = log) /\
  (0.4 < u ->
   exists text : string,
     GeminiService.fetchRadioChatter o = GeminiService.Resolved text /\
     Radio.chatter u o newId now log
     = GameOverlay.addMessage newId now "VAPOR_NET" text log) /\
  (GameOverlay.reachableLog log ->
   GameOverlay.reachableLog (Radio.chatter u o newId now log)).
Proof.
  unfold Radio.chatter.
  assert (Hres : exists text, GeminiService.fetchRadioChatter o = GeminiService.Resolved text).
  { unfold GeminiService.fetchRadioChatter. destruct (GeminiService.tryBlock o); eauto. }
  destruct Hres as [text Hres]. rewrite Hres.
  repeat split.
  - intros Hu. replace (Rgtb u 0.4) with false; [reflexivity|].
    symmetry. apply Rgtb_false. exact Hu.
  - intros Hu. exists text. split; [reflexivity|].
    replace (Rgtb u 0.4) with true; [reflexivity|].
    symmetry. apply Rgtb_true. exact Hu.
  - intros Hlog. destruct (Rgtb u 0.4); [constructor|]; exact Hlog.
Qed.

(** ** A blank response *)

Lemma dropLeading_code (w rest : list ascii) :
  In w GeminiService.whiteSpaceCodes ->
  GeminiService.dropLeading GeminiService.whiteSpaceCodes (w ++ rest) = Some rest.
Proof.
  intros Hin. simpl in Hin.
  repeat (destruct Hin as [<-|Hin]; [reflexivity|]). destruct Hin.
Qed.

Lemma whiteSpaces_trimmed (l : list ascii) :
  Shape.WhiteSpaces l ->
  forall fuel, (List.length l <= fuel)%nat ->
               GeminiService.dropAllLeading GeminiService.whiteSpaceCodes fuel l = [].
Proof.
  induction 1 as [|w rest Hin _ IH]; intros fuel Hlen.
  - destruct fuel; reflexivity.
  - assert (Hw : w <> []).
    { pose proof whiteSpaceCodes_nonempty as Hne. rewrite Forall_forall in Hne.
      apply Hne, Hin. }
    rewrite length_app in Hlen.
    destruct fuel as [|fuel]; [destruct w; [contradiction|simpl in Hlen; lia]|].
    cbn [GeminiService.dropAllLeading]. rewrite (dropLeading_code w rest Hin). apply IH.
    destruct w; [contradiction|simpl in Hlen; lia].
Qed.

(** X26: a response whose text is not empty resolves to the empty string
    exactly when the text is white space only: such a response puts an
    empty message in the log, not a fallback. *)
Theorem blank_response_gives_empty_message (text : string) :
  text <> EmptyString ->
  (GeminiService.fetchRadioChatter (GeminiService.Responds (Some text))
   = GeminiService.Resolved EmptyString
   <-> Shape.WhiteSpaces (list_ascii_of_string text)).
Proof.
  intros Hne. destruct text as [|c rest]; [contradiction|].
  unfold GeminiService.fetchRadioChatter, GeminiService.tryBlock, GeminiService.truthy.
  split.
  - intros H. injection H as H.
    destruct (trim_spec (String c rest)) as (lead & trail & Hs & Hlead & Htrail & _).
    rewrite H in Hs. rewrite Hs. simpl. apply madeOf_app; assumption.
  - intros H. unfold GeminiService.trim, GeminiService.trimStart.
    rewrite (whiteSpaces_trimmed _ H _ (le_n _)). reflexivity.
Qed.

Lemma blank_response_gives_empty_message_witness :
  String (ascii_of_nat 194) (String (ascii_of_nat 160) " ") <> EmptyString /\
  GeminiService.fetchRadioChatter
    (GeminiService.Responds (Some (String (ascii_of_nat 194) (String (ascii_of_nat 160) " "))))
  = GeminiService.Resolved EmptyString.
Proof.
  assert (H : String (ascii_of_nat 194) (String (ascii_of_nat 160) " ") <> EmptyString)
    by discriminate.
  split; [exact H|].
  apply (blank_response_gives_empty_message _ H).
  change (list_ascii_of_string (String (ascii_of_nat 194) (String (ascii_of_nat 160) " ")))
    with (map ascii_of_nat [194; 160]%nat ++ (map ascii_of_nat [32]%nat ++ []))%list.
  constructor; [simpl; tauto|]. constructor; [simpl; tauto|constructor].
Defined.
